(** * Art-Net input driver

    A shallow embedding of [driver_addon/sys_artnet_in.py]: the frame
    validation of [Receiver.handle_data], the channel buffer copy, the
    channel accessors and the open/close life cycle of the receiver.

    Python integers are [Z]; [bytes] and [bytearray] values are lists of
    [Z] (every element the code builds is shown to lie in 0..255).  A
    [bytearray] is a mutable object: it lives in a heap and is passed by
    reference, so that two receivers built over one buffer alias it.
    Exceptions do not roll the state back: a method is a function from a
    state to an outcome {e and} the state it leaves behind. *)

From stdpp Require Import gmap strings list pretty.

(** ** Exceptions and the state-and-exception monad *)

Inductive exn : Type :=
  | IndexError
  | OSError (msg : string)
  | RuntimeError (msg : string)
  | Dangling.

Inductive outcome (A : Type) : Type :=
  | Ok (a : A)
  | Raise (e : exn).
Arguments Ok {A} a.
Arguments Raise {A} e.

Definition M (S A : Type) : Type := S -> outcome A * S.

Definition ret {S A} (a : A) : M S A := fun s => (Ok a, s).

Definition raise {S A} (e : exn) : M S A := fun s => (Raise e, s).

Definition bind {S A B} (m : M S A) (k : A -> M S B) : M S B :=
  fun s => match m s with
           | (Ok a, s') => k a s'
           | (Raise e, s') => (Raise e, s')
           end.

Definition lift {S A} (o : outcome A) : M S A := fun s => (o, s).

Definition gets {S A} (f : S -> A) : M S A := fun s => (Ok (f s), s).

Definition modify {S} (f : S -> S) : M S unit := fun s => (Ok tt, f s).

Declare Scope py_scope.
Delimit Scope py_scope with py.
Notation "'let*' x := m 'in' k" := (bind m (fun x => k))
  (at level 10, x name, m at level 100, k at level 200) : py_scope.
Notation "m ;;; k" := (bind m (fun _ => k))
  (at level 100, k at level 200, right associativity) : py_scope.
Local Open Scope py_scope.

(** A computation over a component [T] of the state, run on the whole
    state [S]: how a method of the base class runs on a subclass object,
    and a static helper on the heap alone. *)
Definition zoom {S T A} (proj : S -> T) (upd : T -> S -> S) (m : M T A) : M S A :=
  fun s => let '(o, t') := m (proj s) in (o, upd t' s).

(** ** Sequences of bytes *)

Definition is_byte (z : Z) : Prop := (0 <= z < 256)%Z.

(** [ord] on the characters of a string literal. *)
Definition ord (a : Ascii.ascii) : Z := Z.of_N (Ascii.N_of_ascii a).

(** Subscription [l[i]] with an integer index: a negative index counts
    from the end, anything out of range is an [IndexError]. *)
Definition norm_index (len : nat) (i : Z) : outcome nat :=
  if decide (0 <= i < Z.of_nat len)%Z then Ok (Z.to_nat i)
  else if decide (- Z.of_nat len <= i < 0)%Z then Ok (Z.to_nat (Z.of_nat len + i))
  else Raise IndexError.

Definition getitem (l : list Z) (i : Z) : outcome Z :=
  match norm_index (length l) i with
  | Ok k => match l !! k with Some x => Ok x | None => Raise IndexError end
  | Raise e => Raise e
  end.

Definition setitem (l : list Z) (i : Z) (x : Z) : outcome (list Z) :=
  match norm_index (length l) i with
  | Ok k => Ok (<[k := x]> l)
  | Raise e => Raise e
  end.

(** Slices [l[a:b]] and [l[a:]] with non-negative bounds; they never fail
    and clip at the end of the sequence. *)
Definition slice (l : list Z) (a b : nat) : list Z := take (b - a) (drop a l).
Definition slice_from (l : list Z) (a : nat) : list Z := drop a l.

(** [range(n)]. *)
Definition range (n : nat) : list Z := Z.of_nat <$> seq 0 n.

(** ** The heap of [bytearray] objects *)

Definition loc : Type := positive.
Abbreviation heap := (gmap loc (list Z)).

(** Python references never dangle; the heap of the model is partial, and
    a use of a location outside its domain is reported as [Dangling]. *)
Definition deref (l : loc) : M heap (list Z) :=
  fun h => match h !! l with
           | Some b => (Ok b, h)
           | None => (Raise Dangling, h)
           end.

Definition bytearray_len (l : loc) : M heap nat :=
  let* b := deref l in ret (length b).

Definition bytearray_setitem (l : loc) (i x : Z) : M heap unit :=
  let* b := deref l in
  let* b' := lift (setitem b i x) in
  modify (fun h => <[l := b']> h).

Definition bytearray_getitem (l : loc) (i : Z) : M heap Z :=
  let* b := deref l in lift (getitem b i).

(** [bytearray((0x00,) * 512)]. *)
Definition zero_buffer : list Z := replicate 512 0%Z.

(** ** Sockets and threads, as far as the receiver uses them *)

Inductive socket : Type :=
  | SockUnbound
  | SockBound (ip : string) (port : Z)
  | SockClosed.

(** [sock.bind((ip, port))]; [os_err] is what the operating system
    answers for a fresh socket ([None]: the address is free). *)
Definition sock_bind (s : socket) (ip : string) (port : Z) (os_err : option string)
  : outcome socket :=
  match s with
  | SockUnbound =>
      match os_err with
      | None => Ok (SockBound ip port)
      | Some msg => Raise (OSError msg)
      end
  | SockBound _ _ => Raise (OSError "Invalid argument")
  | SockClosed => Raise (OSError "Bad file descriptor")
  end.

(** [sock.close()] may be repeated. *)
Definition sock_close (s : socket) : socket := SockClosed.

(** What one [sock.recvfrom(1024)] does: it returns a datagram, raises
    [TimeoutError], or raises another exception with text [e]. *)
Inductive recv_result : Type :=
  | Datagram (data : list Z)
  | RecvTimeout
  | RecvError (e : string).

Inductive thread : Type :=
  | ThreadNew
  | ThreadRunning
  | ThreadFinished.

(** [t.start()]: a thread starts once. *)
Definition thread_start (t : thread) : outcome thread :=
  match t with
  | ThreadNew => Ok ThreadRunning
  | _ => Raise (RuntimeError "threads can only be started once")
  end.

(** [t.join(3)] from the controlling thread.  The loop of the worker tests
    [do_receive] at least every 0.1 s (the socket timeout), so the join is
    taken to return with the worker finished; joining a thread that was
    never started is an error, joining again is not. *)
Definition thread_join (t : thread) : outcome thread :=
  match t with
  | ThreadNew => Raise (RuntimeError "cannot join thread before it is started")
  | ThreadRunning => Ok ThreadFinished
  | ThreadFinished => Ok ThreadFinished
  end.

(** ** class Receiver *)

Module Receiver.

Record t : Type := mk {
  sock : option socket;
  udp_ip : string;
  udp_port : Z;
  artnet_universe : Z;
  _artnet_header : list Z;
  _data_header : list Z;
  _channels : loc;
  do_receive : bool;
  status : string
}.

Definition set_sock (v : option socket) (r : t) : t :=
  mk v (udp_ip r) (udp_port r) (artnet_universe r) (_artnet_header r)
     (_data_header r) (_channels r) (do_receive r) (status r).
Definition set_udp_ip (v : string) (r : t) : t :=
  mk (sock r) v (udp_port r) (artnet_universe r) (_artnet_header r)
     (_data_header r) (_channels r) (do_receive r) (status r).
Definition set_udp_port (v : Z) (r : t) : t :=
  mk (sock r) (udp_ip r) v (artnet_universe r) (_artnet_header r)
     (_data_header r) (_channels r) (do_receive r) (status r).
Definition set_artnet_universe (v : Z) (r : t) : t :=
  mk (sock r) (udp_ip r) (udp_port r) v (_artnet_header r)
     (_data_header r) (_channels r) (do_receive r) (status r).
Definition set_data_header (v : list Z) (r : t) : t :=
  mk (sock r) (udp_ip r) (udp_port r) (artnet_universe r) (_artnet_header r)
     v (_channels r) (do_receive r) (status r).
Definition set_do_receive (v : bool) (r : t) : t :=
  mk (sock r) (udp_ip r) (udp_port r) (artnet_universe r) (_artnet_header r)
     (_data_header r) (_channels r) v (status r).
Definition set_status (v : string) (r : t) : t :=
  mk (sock r) (udp_ip r) (udp_port r) (artnet_universe r) (_artnet_header r)
     (_data_header r) (_channels r) (do_receive r) v.

(** The state a method runs on: the object and the heap of buffers. *)
Definition on_self {A} (m : M t A) : M (t * heap) A :=
  zoom fst (fun r s => (r, snd s)) m.
Definition on_heap {A} (m : M heap A) : M (t * heap) A :=
  zoom snd (fun h s => (fst s, h)) m.

(** The default of the parameter [channel_buffer] is evaluated once,
    when the [def] is executed: every call that omits the argument
    receives this one object. *)
Definition default_channel_buffer : loc := 1%positive.
Definition default_udp_ip : string := "127.0.0.1".
Definition default_udp_port : Z := 6454.
Definition default_artnet_universe : Z := 0.

Definition _build_data_header (artnet_universe : Z) : list Z :=
  [ Z.land artnet_universe 255;
    Z.land (Z.shiftr artnet_universe 8) 255;
    2; 0 ]%Z.

Definition _build_artnet_header : list Z :=
  let header_base := ord <$> String.list_ascii_of_string "Art-Net" in
  let header_base := header_base ++ [0]%Z in
  let header_base := header_base ++ [0; 80]%Z in
  let header_base := header_base ++ [0; 14]%Z in
  let frame_number := 0%Z in
  header_base ++ [frame_number; 0%Z].

(** [__init__]; [channel_buffer = None] is the omitted argument. *)
Definition init (udp_ip : string) (udp_port artnet_universe : Z)
    (channel_buffer : option loc) : t :=
  {| sock := None;
     udp_ip := udp_ip;
     udp_port := udp_port;
     artnet_universe := artnet_universe;
     _artnet_header := _build_artnet_header;
     _data_header := _build_data_header artnet_universe;
     _channels := default default_channel_buffer channel_buffer;
     do_receive := false;
     status := "Inactive" |}.

(** [open]: the new socket is stored before [bind] is tried, so a failed
    bind leaves it behind, unbound.  [settimeout(0.1)] and the [log] lines
    (a [print]) change nothing that is modelled here. *)
Definition open (os_err : option string) : M (t * heap) unit :=
  on_self (
    let* u := gets artnet_universe in
    modify (set_data_header (_build_data_header u));;;
    modify (set_sock (Some SockUnbound));;;
    let* ip := gets udp_ip in
    let* port := gets udp_port in
    let* s := lift (sock_bind SockUnbound ip port os_err) in
    modify (set_sock (Some s));;;
    modify (set_do_receive true)).

Fixpoint copy_loop (idx : list Z) (channels : list Z) (channels_out_buffer : loc)
  : M heap unit :=
  match idx with
  | [] => ret tt
  | i :: idx' =>
      let* x := lift (getitem channels i) in
      bytearray_setitem channels_out_buffer i x;;;
      copy_loop idx' channels channels_out_buffer
  end.

Definition copy_channels_to_buffer (channels : list Z) (channels_out_buffer : loc)
  : M heap unit :=
  let received_channel_length := length channels in
  let* max_acceptable_channel_length := bytearray_len channels_out_buffer in
  let copy_length := min max_acceptable_channel_length received_channel_length in
  copy_loop (range copy_length) channels channels_out_buffer.

Definition handle_data (channel_buffer : loc) (data : list Z) : M (t * heap) unit :=
  let header_base := slice data 0 12 in
  let* hdr := on_self (gets _artnet_header) in
  let expected_header_base := slice hdr 0 12 in
  if decide (header_base = expected_header_base) then
    let data_header := slice data 14 18 in
    let* dh := on_self (gets _data_header) in
    if decide (data_header = dh) then
      let channels := slice_from data 18 in
      on_heap (copy_channels_to_buffer channels channel_buffer);;;
      on_self (modify (set_status
        ("Receiving " +:+ pretty (length channels) +:+ " Channels")))
    else
      on_self (modify (set_status "Invalid Data"))
  else
    on_self (modify (set_status "Invalid Data")).

Definition receive_into_buffer (channel_buffer : loc) (recv : recv_result)
  : M (t * heap) unit :=
  match recv with
  | RecvTimeout => on_self (modify (set_status "Timeout"))
  | RecvError e => on_self (modify (set_status ("Error " +:+ e)))
  | Datagram data => handle_data channel_buffer data
  end.

Definition receive_next (recv : recv_result) : M (t * heap) unit :=
  let* b := on_self (gets _channels) in
  receive_into_buffer b recv.

(** The loop of [receive], followed as far as the results [recvs] of its
    successive [recvfrom] calls go.  The answer is [true] when the loop has
    been left and [false] when it is waiting for the next datagram. *)
Fixpoint receive (recvs : list recv_result) : M (t * heap) bool :=
  match recvs with
  | [] => let* dr := on_self (gets do_receive) in ret (negb dr)
  | recv :: rest =>
      let* dr := on_self (gets do_receive) in
      if dr : bool then receive_next recv;;; receive rest else ret true
  end.

Definition get_channels : M (t * heap) loc := on_self (gets _channels).

Definition get_channel (channel : Z) : M (t * heap) Z :=
  let* b := on_self (gets _channels) in
  on_heap (bytearray_getitem b channel).

Definition close : M (t * heap) unit :=
  on_self (
    let* s := gets sock in
    match s with
    | Some s => modify (set_sock (Some (sock_close s)))
    | None => ret tt
    end;;;
    modify (set_status "Inactive")).

End Receiver.

(** ** class MultithreadReceiver(Receiver) *)

Module MultithreadReceiver.

Record t : Type := mk {
  super : Receiver.t;
  _thread : option thread;
  stop_event : bool
}.

Definition set_super (v : Receiver.t) (r : t) : t := mk v (_thread r) (stop_event r).
Definition set_thread (v : option thread) (r : t) : t := mk (super r) v (stop_event r).
Definition set_stop_event (v : bool) (r : t) : t := mk (super r) (_thread r) v.

Definition on_self {A} (m : M t A) : M (t * heap) A :=
  zoom fst (fun r s => (r, snd s)) m.

(** A method inherited from [Receiver], run on the base part of the object. *)
Definition on_super {A} (m : M (Receiver.t * heap) A) : M (t * heap) A :=
  zoom (fun s => (super (fst s), snd s))
       (fun rh s => (set_super (fst rh) (fst s), snd rh)) m.

(** The subclass has a default buffer of its own, again one object for
    all calls, and hands it to the base class explicitly. *)
Definition default_channel_buffer : loc := 2%positive.

Definition init (udp_ip : string) (udp_port artnet_universe : Z)
    (channel_buffer : option loc) : t :=
  {| super := Receiver.init udp_ip udp_port artnet_universe
                (Some (default default_channel_buffer channel_buffer));
     _thread := None;
     stop_event := false |}.

Definition close : M (t * heap) unit :=
  on_super (Receiver.on_self (modify (Receiver.set_do_receive false)));;;
  on_self (modify (set_stop_event true));;;
  let* th := on_self (gets _thread) in
  match th with
  | Some th =>
      let* th' := lift (thread_join th) in
      on_self (modify (set_thread (Some th')))
  | None => ret tt
  end;;;
  on_super Receiver.close.

Definition open (os_err : option string) : M (t * heap) unit :=
  let* dr := on_super (Receiver.on_self (gets Receiver.do_receive)) in
  (if dr : bool then close else ret tt);;;
  on_super (Receiver.open os_err);;;
  on_self (modify (set_thread (Some ThreadNew)));;;
  let* th := lift (thread_start ThreadNew) in
  on_self (modify (set_thread (Some th))).

(** One turn of the loop of [receive_into_shared_buffer], which the worker
    thread runs on the buffer it was started with. *)
Definition receive_into_shared_buffer_step (channel_buffer : loc) (recv : recv_result)
  : M (t * heap) unit :=
  on_super (Receiver.receive_into_buffer channel_buffer recv).

(** The whole loop of [receive_into_shared_buffer], followed like
    [Receiver.receive]. *)
Fixpoint receive_into_shared_buffer (channel_buffer : loc) (recvs : list recv_result)
  : M (t * heap) bool :=
  match recvs with
  | [] =>
      let* dr := on_super (Receiver.on_self (gets Receiver.do_receive)) in
      ret (negb dr)
  | recv :: rest =>
      let* dr := on_super (Receiver.on_self (gets Receiver.do_receive)) in
      if dr : bool then
        on_super (Receiver.receive_into_buffer channel_buffer recv);;;
        receive_into_shared_buffer channel_buffer rest
      else ret true
  end.

End MultithreadReceiver.

(** ** The add-on module: its global receiver, operators and accessors *)

Abbreviation state := (MultithreadReceiver.t * heap)%type.

(** The heap once both class bodies have been executed. *)
Definition module_heap : heap :=
  <[Receiver.default_channel_buffer := zero_buffer]>
    (<[MultithreadReceiver.default_channel_buffer := zero_buffer]> ∅).

(** [receiver = MultithreadReceiver()]. *)
Definition receiver : MultithreadReceiver.t :=
  MultithreadReceiver.init Receiver.default_udp_ip Receiver.default_udp_port
    Receiver.default_artnet_universe None.

Definition initial : state := (receiver, module_heap).

(** Truth value of an instance of a class without [__bool__] or [__len__]. *)
Definition truthy (r : MultithreadReceiver.t) : bool := true.

Definition ArtNetStartOperator_invoke (udp_ip : string) (udp_port artnet_universe : Z)
    (os_err : option string) : M state unit :=
  let* dr := MultithreadReceiver.on_super (Receiver.on_self (gets Receiver.do_receive)) in
  (if dr : bool then MultithreadReceiver.close else ret tt);;;
  MultithreadReceiver.on_super (Receiver.on_self (
    modify (Receiver.set_udp_ip udp_ip);;;
    modify (Receiver.set_udp_port udp_port);;;
    modify (Receiver.set_artnet_universe artnet_universe)));;;
  MultithreadReceiver.open os_err.

Definition ArtNetStopOperator_invoke : M state unit :=
  let* dr := MultithreadReceiver.on_super (Receiver.on_self (gets Receiver.do_receive)) in
  if dr : bool then MultithreadReceiver.close else ret tt.

Definition get_dmx_channel (channel : Z) : M state Z :=
  let* r := MultithreadReceiver.on_self (gets id) in
  if truthy r then MultithreadReceiver.on_super (Receiver.get_channel channel)
  else ret 0%Z.

Definition close_receiver : M state unit := MultithreadReceiver.close.

(** What can happen to the module: the two operators, the shutdown path,
    and a turn of the worker loop, which runs only while the thread is
    alive and the flag is set. *)
Inductive event : Type :=
  | EvStart (udp_ip : string) (udp_port artnet_universe : Z) (os_err : option string)
  | EvStop
  | EvCloseReceiver
  | EvWorker (recv : recv_result).

Definition worker_enabled (r : MultithreadReceiver.t) : bool :=
  match MultithreadReceiver._thread r with
  | Some ThreadRunning => Receiver.do_receive (MultithreadReceiver.super r)
  | _ => false
  end.

Definition run_event (ev : event) : M state unit :=
  match ev with
  | EvStart ip port u os_err => ArtNetStartOperator_invoke ip port u os_err
  | EvStop => ArtNetStopOperator_invoke
  | EvCloseReceiver => close_receiver
  | EvWorker recv =>
      let* r := MultithreadReceiver.on_self (gets id) in
      if worker_enabled r then
        MultithreadReceiver.receive_into_shared_buffer_step
          (Receiver._channels (MultithreadReceiver.super r)) recv
      else ret tt
  end.

(** An exception of an operator is reported by the host; the state it
    left behind stays. *)
Definition step (s : state) (ev : event) : state := snd (run_event ev s).

Definition run (evs : list event) (s : state) : state := foldl step s evs.

Definition reachable (s : state) : Prop := exists evs, s = run evs initial.

(** A receiver holds the header templates of universe [u]: what [__init__]
    and [open] establish from the configuration. *)
Definition configured_for (u : Z) (r : Receiver.t) : Prop :=
  Receiver._artnet_header r = Receiver._build_artnet_header /\
  Receiver._data_header r = Receiver._build_data_header u.

(** The frame a sender builds for universe [u] and payload [p]. *)
Definition build_frame (u : Z) (p : list Z) : list Z :=
  Receiver._build_artnet_header ++ Receiver._build_data_header u ++ p.

(** No start operator among the events: the receiver was never opened. *)
Definition never_opened (evs : list event) : bool :=
  forallb (fun ev => match ev with EvStart _ _ _ _ => false | _ => true end) evs.

(** The buffer of the global receiver, as the heap holds it. *)
Definition channels_of (s : state) : option (list Z) :=
  snd s !! Receiver._channels (MultithreadReceiver.super (fst s)).

Definition status_of (s : state) : string :=
  Receiver.status (MultithreadReceiver.super (fst s)).

(** What holds of the module in every state it can reach: a thread kept
    in [_thread] has been started, and the buffer of the receiver is
    allocated with its 512 entries. *)
Definition inv (s : state) : Prop :=
  MultithreadReceiver._thread (fst s) <> Some ThreadNew /\
  exists buf, channels_of s = Some buf /\ length buf = 512.

(** The texts the status takes. *)
Definition status_form (st : string) : Prop :=
  st = "Inactive" \/ st = "Timeout" \/ st = "Invalid Data" \/
  (exists e : string, st = "Error " +:+ e) \/
  (exists n : nat, st = "Receiving " +:+ pretty n +:+ " Channels").

Definition is_bound (sk : option socket) : bool :=
  match sk with
  | Some (SockBound _ _) => true
  | _ => false
  end.

(** How flag, thread, socket, status and header templates of the global
    receiver go together. *)
Definition coherent (s : state) : Prop :=
  let r := fst s in
  let b := MultithreadReceiver.super r in
  configured_for (Receiver.artnet_universe b) b /\
  status_form (Receiver.status b) /\
  Receiver._channels b = MultithreadReceiver.default_channel_buffer /\
  if Receiver.do_receive b then
    MultithreadReceiver._thread r = Some ThreadRunning /\
    Receiver.sock b = Some (SockBound (Receiver.udp_ip b) (Receiver.udp_port b))
  else
    MultithreadReceiver._thread r <> Some ThreadRunning /\
    is_bound (Receiver.sock b) = false /\
    Receiver.status b = "Inactive".

(** * Properties *)

(** Case analysis on the thread, the flag and the socket of a state. *)
Ltac destruct_state s :=
  let sk := fresh "sk" in
  let th := fresh "th" in
  let dr := fresh "dr" in
  destruct s as [[[sk ? ? ? ? ? ? dr ?] th ?] ?];
  destruct th as [[]|]; destruct dr; destruct sk.

(** Unfolding the coherence of a state and closing its parts. *)
Ltac coherent_tac :=
  unfold coherent, configured_for, status_form in *; simpl in *;
  repeat match goal with
         | H : _ /\ _ |- _ => destruct H
         end;
  try discriminate; try congruence;
  repeat split; auto; try discriminate; try congruence.

(** ** Bytes, indices and slices *)

Lemma norm_index_nat (len k : nat) :
  k < len -> norm_index len (Z.of_nat k) = Ok k.
Proof.
  intros Hk. unfold norm_index.
  rewrite decide_True by lia. by rewrite Nat2Z.id.
Qed.

Lemma norm_index_neg (len : nat) (i : Z) :
  (- Z.of_nat len <= i < 0)%Z ->
  norm_index len i = Ok (Z.to_nat (Z.of_nat len + i)).
Proof.
  intros Hi. unfold norm_index.
  rewrite decide_False by lia. by rewrite decide_True by lia.
Qed.

Lemma norm_index_out (len : nat) (i : Z) :
  (i < - Z.of_nat len \/ Z.of_nat len <= i)%Z ->
  norm_index len i = Raise IndexError.
Proof.
  intros Hi. unfold norm_index.
  rewrite decide_False by lia. by rewrite decide_False by lia.
Qed.

Lemma getitem_nat (l : list Z) (k : nat) (x : Z) :
  l !! k = Some x -> getitem l (Z.of_nat k) = Ok x.
Proof.
  intros Hx. unfold getitem.
  rewrite norm_index_nat by (by eapply lookup_lt_Some).
  by rewrite Hx.
Qed.

Lemma setitem_nat (l : list Z) (k : nat) (x : Z) :
  k < length l -> setitem l (Z.of_nat k) x = Ok (<[k := x]> l).
Proof. intros Hk. unfold setitem. by rewrite norm_index_nat. Qed.

Lemma build_data_header_bytes (u : Z) :
  Forall is_byte (Receiver._build_data_header u).
Proof.
  unfold Receiver._build_data_header, is_byte.
  repeat constructor; try lia.
  - apply Z.land_nonneg. lia.
  - change 255%Z with (Z.ones 8). rewrite Z.land_ones by lia.
    pose proof (Z.mod_pos_bound u (2 ^ 8)). lia.
  - apply Z.land_nonneg. lia.
  - change 255%Z with (Z.ones 8). rewrite Z.land_ones by lia.
    pose proof (Z.mod_pos_bound (Z.shiftr u 8) (2 ^ 8)). lia.
Qed.

Lemma build_artnet_header_bytes :
  Forall is_byte Receiver._build_artnet_header.
Proof. unfold is_byte. vm_compute. repeat constructor; discriminate. Qed.

Lemma build_data_header_length (u : Z) :
  length (Receiver._build_data_header u) = 4.
Proof. reflexivity. Qed.

Lemma build_artnet_header_length :
  length Receiver._build_artnet_header = 14.
Proof. reflexivity. Qed.

(** ** The copy loop *)

Lemma bytearray_setitem_nat (l : loc) (h : heap) (b : list Z) (k : nat) (x : Z) :
  h !! l = Some b -> k < length b ->
  bytearray_setitem l (Z.of_nat k) x h = (Ok tt, <[l := <[k := x]> b]> h).
Proof.
  intros Hl Hk. unfold bytearray_setitem, bind, deref, lift, modify.
  rewrite Hl. by rewrite setitem_nat.
Qed.

(** The loop over the indices [a .. a+n-1]: they are overwritten with the
    payload, everything else stays. *)
Lemma copy_loop_spec (n : nat) : forall (a : nat) (channels out : list Z) (l : loc) (h : heap),
  h !! l = Some out ->
  a + n <= length out -> a + n <= length channels ->
  Receiver.copy_loop (Z.of_nat <$> seq a n) channels l h
  = (Ok tt, <[l := take a out ++ take n (drop a channels) ++ drop (a + n) out]> h).
Proof.
  induction n as [|n IH]; intros a channels out l h Hl Ho Hc.
  - simpl. unfold ret. rewrite Nat.add_0_r, take_drop.
    by rewrite insert_id.
  - destruct (lookup_lt_is_Some_2 channels a) as [x Hx]; [lia|].
    simpl. unfold bind at 1. unfold lift.
    rewrite (getitem_nat _ _ _ Hx).
    unfold bind at 1.
    rewrite (bytearray_setitem_nat l h out a x Hl) by lia.
    rewrite (IH (S a) channels (<[a := x]> out) l (<[l := <[a := x]> out]> h)).
    + rewrite insert_insert_eq. do 2 f_equal.
      rewrite (drop_S _ _ _ Hx). simpl.
      rewrite drop_insert_lt by lia.
      rewrite (take_S_r _ _ x) by (apply list_lookup_insert_eq; lia).
      rewrite take_insert_ge by lia.
      replace (a + S n) with (S a + n) by lia.
      by rewrite <- app_assoc.
    + apply lookup_insert_eq.
    + rewrite length_insert. lia.
    + lia.
Qed.

Lemma copy_channels_to_buffer_spec (channels out : list Z) (l : loc) (h : heap) :
  h !! l = Some out ->
  let n := min (length out) (length channels) in
  Receiver.copy_channels_to_buffer channels l h
  = (Ok tt, <[l := take n channels ++ drop n out]> h).
Proof.
  intros Hl n. unfold Receiver.copy_channels_to_buffer, bytearray_len.
  unfold bind at 1. unfold bind at 1. unfold deref. rewrite Hl. unfold ret, range.
  fold n. rewrite (copy_loop_spec n 0 channels out l h Hl) by (subst n; simpl; lia).
  by rewrite take_0, drop_0.
Qed.

(** ** Frame validation *)

Lemma handle_data_accept (r : Receiver.t) (h : heap) (cb : loc) (data out : list Z) :
  slice data 0 12 = slice (Receiver._artnet_header r) 0 12 ->
  slice data 14 18 = Receiver._data_header r ->
  h !! cb = Some out ->
  let channels := slice_from data 18 in
  let n := min (length out) (length channels) in
  Receiver.handle_data cb data (r, h)
  = (Ok tt,
     (Receiver.set_status ("Receiving " +:+ pretty (length channels) +:+ " Channels") r,
      <[cb := take n channels ++ drop n out]> h)).
Proof.
  intros Hh Hd Hl channels n. unfold Receiver.handle_data.
  unfold bind at 1. unfold Receiver.on_self at 1, zoom, gets. simpl fst. simpl snd.
  rewrite decide_True by done.
  unfold bind at 1. unfold Receiver.on_self at 1, zoom. simpl fst. simpl snd.
  rewrite decide_True by done.
  unfold bind, Receiver.on_heap, Receiver.on_self, zoom, modify. simpl fst. simpl snd.
  by rewrite (copy_channels_to_buffer_spec _ out cb h Hl).
Qed.

Lemma handle_data_reject_header (r : Receiver.t) (h : heap) (cb : loc) (data : list Z) :
  slice data 0 12 <> slice (Receiver._artnet_header r) 0 12 ->
  Receiver.handle_data cb data (r, h)
  = (Ok tt, (Receiver.set_status "Invalid Data" r, h)).
Proof.
  intros Hh. unfold Receiver.handle_data.
  unfold bind at 1. unfold Receiver.on_self at 1, zoom, gets. simpl fst. simpl snd.
  by rewrite decide_False by done.
Qed.

Lemma handle_data_reject_universe (r : Receiver.t) (h : heap) (cb : loc) (data : list Z) :
  slice data 0 12 = slice (Receiver._artnet_header r) 0 12 ->
  slice data 14 18 <> Receiver._data_header r ->
  Receiver.handle_data cb data (r, h)
  = (Ok tt, (Receiver.set_status "Invalid Data" r, h)).
Proof.
  intros Hh Hd. unfold Receiver.handle_data.
  unfold bind at 1. unfold Receiver.on_self at 1, zoom, gets. simpl fst. simpl snd.
  rewrite decide_True by done.
  unfold bind at 1. unfold Receiver.on_self at 1, zoom. simpl fst. simpl snd.
  by rewrite decide_False by done.
Qed.

Lemma init_configured (ip : string) (port u : Z) (cb : option loc) :
  configured_for u (Receiver.init ip port u cb).
Proof. by split. Qed.

Lemma open_configured (r : Receiver.t) (h : heap) (os_err : option string) (u : Z) :
  configured_for u r ->
  configured_for (Receiver.artnet_universe r) (fst (snd (Receiver.open os_err (r, h)))).
Proof.
  intros [Ha _]. destruct os_err; split; simpl; done.
Qed.

Lemma build_frame_slices (u : Z) (p : list Z) :
  slice (build_frame u p) 0 12 = slice Receiver._build_artnet_header 0 12 /\
  slice (build_frame u p) 14 18 = Receiver._build_data_header u /\
  slice_from (build_frame u p) 18 = p.
Proof. by repeat split. Qed.

(** ** Frames accepted and rejected *)

(** C1: for every universe [u] (the valid ones, 0..32767, included) and
    every payload [p] of at most 512 bytes, the frame header +
    universe-header(u) + p is accepted by a receiver configured for [u]:
    the payload extracted is exactly [p], it is copied to the front of the
    512-entry buffer, and the status reports [len(p)] channels. *)
Theorem frame_roundtrip (u : Z) (p buf : list Z) (r : Receiver.t) (h : heap) (cb : loc) :
  length p <= 512 ->
  configured_for u r ->
  h !! cb = Some buf -> length buf = 512 ->
  slice_from (build_frame u p) 18 = p /\
  Receiver.handle_data cb (build_frame u p) (r, h)
  = (Ok tt,
     (Receiver.set_status ("Receiving " +:+ pretty (length p) +:+ " Channels") r,
      <[cb := p ++ drop (length p) buf]> h)).
Proof.
  intros Hp [Ha Hd] Hl Hb.
  destruct (build_frame_slices u p) as (H12 & H18 & Hpay).
  split; [done|].
  rewrite (handle_data_accept r h cb (build_frame u p) buf); [|congruence..|done].
  rewrite Hpay, Hb.
  replace (min 512 (length p)) with (length p) by lia.
  by rewrite firstn_all.
Qed.

Lemma frame_roundtrip_witness :
  Receiver.handle_data Receiver.default_channel_buffer (build_frame 3 [10; 20; 30]%Z)
    (Receiver.init "127.0.0.1" 6454 3 None, module_heap)
  = (Ok tt,
     (Receiver.set_status "Receiving 3 Channels" (Receiver.init "127.0.0.1" 6454 3 None),
      <[Receiver.default_channel_buffer := [10; 20; 30]%Z ++ drop 3 zero_buffer]> module_heap)).
Proof.
  apply (frame_roundtrip 3 [10; 20; 30]%Z zero_buffer
           (Receiver.init "127.0.0.1" 6454 3 None) module_heap
           Receiver.default_channel_buffer).
  - simpl. lia.
  - split; reflexivity.
  - reflexivity.
  - reflexivity.
Defined.

(** C4: a frame shorter than 18 bytes, or one whose first 12 bytes differ
    from the expected protocol header, is rejected whatever else it
    holds: the status becomes "Invalid Data", no payload is extracted and
    the heap of buffers is left as it was. *)
Theorem invalid_header_rejected (u : Z) (r : Receiver.t) (h : heap) (cb : loc)
    (data : list Z) :
  configured_for u r ->
  length data < 18 \/ slice data 0 12 <> slice Receiver._build_artnet_header 0 12 ->
  Receiver.handle_data cb data (r, h)
  = (Ok tt, (Receiver.set_status "Invalid Data" r, h)).
Proof.
  intros [Ha Hd] Hbad.
  destruct (decide (slice data 0 12 = slice (Receiver._artnet_header r) 0 12)) as [He|Hne].
  - apply handle_data_reject_universe; [done|].
    destruct Hbad as [Hshort|Hdiff]; [|rewrite Ha in He; done].
    intros Heq. apply (f_equal length) in Heq.
    rewrite Hd, build_data_header_length in Heq.
    unfold slice in Heq. rewrite length_take, length_drop in Heq. lia.
  - by apply handle_data_reject_header.
Qed.

Lemma invalid_header_rejected_witness :
  Receiver.handle_data Receiver.default_channel_buffer
    (take 17 (build_frame 3 [10; 20; 30]%Z))
    (Receiver.init "127.0.0.1" 6454 3 None, module_heap)
  = (Ok tt,
     (Receiver.set_status "Invalid Data" (Receiver.init "127.0.0.1" 6454 3 None),
      module_heap)).
Proof.
  apply (invalid_header_rejected 3).
  - split; reflexivity.
  - left. simpl. lia.
Defined.

(** C5: a frame whose first 12 bytes match the expected protocol header
    but whose bytes 14..18 differ from the universe sub-header of the
    receiver (bytes 12..14 play no part) leaves the heap, hence every
    channel value, unchanged and sets the status to "Invalid Data". *)
Theorem universe_mismatch_keeps_channels (r : Receiver.t) (h : heap) (cb : loc)
    (data : list Z) :
  slice data 0 12 = slice (Receiver._artnet_header r) 0 12 ->
  slice data 14 18 <> Receiver._data_header r ->
  Receiver.handle_data cb data (r, h)
  = (Ok tt, (Receiver.set_status "Invalid Data" r, h)).
Proof.
  intros Hh Hd. by apply handle_data_reject_universe.
Qed.

Lemma universe_mismatch_keeps_channels_witness :
  Receiver.handle_data Receiver.default_channel_buffer
    (build_frame 7 [10; 20; 30]%Z)
    (Receiver.init "127.0.0.1" 6454 3 None, module_heap)
  = (Ok tt,
     (Receiver.set_status "Invalid Data" (Receiver.init "127.0.0.1" 6454 3 None),
      module_heap)).
Proof.
  apply (universe_mismatch_keeps_channels
           (Receiver.init "127.0.0.1" 6454 3 None) module_heap
           Receiver.default_channel_buffer (build_frame 7 [10; 20; 30]%Z)).
  - reflexivity.
  - vm_compute. discriminate.
Defined.

(** ** The channel buffer *)

(** C6: on a 512-entry buffer the copy never fails and writes exactly the
    first [min(len(payload), 512)] bytes of the payload, from index 0: the
    buffer keeps its length, the entries below that bound are those of
    the payload, and every entry from that bound on keeps its value. *)
Theorem copy_channels_to_buffer_512 (payload buf : list Z) (l : loc) (h : heap) :
  h !! l = Some buf -> length buf = 512 ->
  exists buf',
    Receiver.copy_channels_to_buffer payload l h = (Ok tt, <[l := buf']> h) /\
    length buf' = 512 /\
    (forall i, i < min (length payload) 512 -> buf' !! i = payload !! i) /\
    (forall i, min (length payload) 512 <= i -> buf' !! i = buf !! i).
Proof.
  intros Hl Hb.
  exists (take (min 512 (length payload)) payload ++ drop (min 512 (length payload)) buf).
  rewrite (copy_channels_to_buffer_spec payload buf l h Hl), Hb.
  assert (Hn : length (take (min 512 (length payload)) payload) = min 512 (length payload))
    by (rewrite length_take; lia).
  repeat split.
  - rewrite length_app, Hn, length_drop. lia.
  - intros i Hi. rewrite lookup_app_l by lia.
    apply lookup_take_lt. lia.
  - intros i Hi. rewrite lookup_app_r by lia.
    rewrite Hn, lookup_drop. f_equal. lia.
Qed.

Lemma copy_channels_to_buffer_512_witness :
  exists buf',
    Receiver.copy_channels_to_buffer [10; 20; 30]%Z Receiver.default_channel_buffer
      module_heap
    = (Ok tt, <[Receiver.default_channel_buffer := buf']> module_heap) /\
    length buf' = 512 /\
    (forall i, i < min (length [10; 20; 30]%Z) 512 -> buf' !! i = [10; 20; 30]%Z !! i) /\
    (forall i, min (length [10; 20; 30]%Z) 512 <= i -> buf' !! i = zero_buffer !! i).
Proof.
  apply (copy_channels_to_buffer_512 [10; 20; 30]%Z zero_buffer
           Receiver.default_channel_buffer module_heap).
  - reflexivity.
  - reflexivity.
Defined.

(** ** The receive step and the life cycle *)

Lemma receive_into_buffer_spec (r : Receiver.t) (h : heap) (cb : loc)
    (recv : recv_result) (buf : list Z) :
  h !! cb = Some buf ->
  exists st' buf',
    Receiver.receive_into_buffer cb recv (r, h)
    = (Ok tt, (Receiver.set_status st' r, <[cb := buf']> h)) /\
    length buf' = length buf.
Proof.
  intros Hl. destruct recv as [data| |e]; simpl.
  - destruct (decide (slice data 0 12 = slice (Receiver._artnet_header r) 0 12)) as [He|Hne].
    + destruct (decide (slice data 14 18 = Receiver._data_header r)) as [Hd|Hd].
      * eexists _, _. split.
        { by apply (handle_data_accept r h cb data buf). }
        rewrite length_app, length_take, length_drop. lia.
      * exists "Invalid Data", buf. rewrite (insert_id _ _ _ Hl). split; [|done].
        by apply handle_data_reject_universe.
    + exists "Invalid Data", buf. rewrite (insert_id _ _ _ Hl). split; [|done].
      by apply handle_data_reject_header.
  - exists "Timeout", buf. by rewrite (insert_id _ _ _ Hl).
  - exists ("Error " +:+ e), buf. by rewrite (insert_id _ _ _ Hl).
Qed.

Lemma close_spec (r : MultithreadReceiver.t) (h : heap) :
  MultithreadReceiver._thread r <> Some ThreadNew ->
  MultithreadReceiver.close (r, h)
  = (Ok tt,
     (MultithreadReceiver.mk
        (Receiver.set_status "Inactive"
           (Receiver.set_sock (sock_close <$> Receiver.sock (MultithreadReceiver.super r))
              (Receiver.set_do_receive false (MultithreadReceiver.super r))))
        ((fun _ => ThreadFinished) <$> MultithreadReceiver._thread r)
        true,
      h)).
Proof.
  destruct r as [[sk ip port u ah dh ch dr st] th se]. simpl. intros Hth.
  destruct th as [[]|]; [done|..]; destruct sk; reflexivity.
Qed.

Lemma close_inv (s : state) : inv s -> inv (snd (MultithreadReceiver.close s)).
Proof.
  intros [Hth Hbuf]. destruct_state s; simpl in *; try done; split; done.
Qed.

Lemma start_inv (ip : string) (port u : Z) (os_err : option string) (s : state) :
  inv s -> inv (snd (ArtNetStartOperator_invoke ip port u os_err s)).
Proof.
  intros [Hth Hbuf].
  destruct_state s; destruct os_err; simpl in *; try done; split; done.
Qed.

Lemma stop_inv (s : state) : inv s -> inv (snd (ArtNetStopOperator_invoke s)).
Proof.
  intros [Hth Hbuf]. destruct_state s; simpl in *; try done; split; done.
Qed.

Lemma worker_inv (recv : recv_result) (s : state) :
  inv s -> inv (step s (EvWorker recv)).
Proof.
  intros [Hth (buf & Hbuf & Hlen)]. destruct s as [r h].
  unfold step, run_event. unfold bind at 1.
  unfold MultithreadReceiver.on_self at 1, zoom, gets, id. cbn [fst snd].
  destruct (worker_enabled r); [|by split; [|exists buf]].
  unfold MultithreadReceiver.receive_into_shared_buffer_step,
    MultithreadReceiver.on_super, zoom. cbn [fst snd].
  unfold channels_of in Hbuf. cbn [fst snd] in Hbuf.
  destruct (receive_into_buffer_spec (MultithreadReceiver.super r) h _ recv buf Hbuf)
    as (st' & buf' & -> & Hlen').
  split; [done|]. exists buf'. split; [|lia].
  unfold channels_of. simpl. apply lookup_insert_eq.
Qed.

Lemma step_inv (ev : event) (s : state) : inv s -> inv (step s ev).
Proof.
  destruct ev.
  - apply start_inv.
  - apply stop_inv.
  - apply close_inv.
  - apply worker_inv.
Qed.

Lemma initial_inv : inv initial.
Proof. split; [done|]. exists zero_buffer. by split. Qed.

Lemma run_inv (evs : list event) : forall s, inv s -> inv (run evs s).
Proof.
  induction evs as [|ev evs IH]; intros s Hs; [done|].
  simpl. apply IH. by apply step_inv.
Qed.

Lemma reachable_inv (s : state) : reachable s -> inv s.
Proof. intros [evs ->]. apply run_inv, initial_inv. Qed.

(** While no start operator has run there is no thread, the flag is
    clear and the buffer still holds its 512 zeros. *)
Lemma never_opened_zero (evs : list event) :
  never_opened evs = true ->
  channels_of (run evs initial) = Some zero_buffer.
Proof.
  enough (Hgen : forall s,
    MultithreadReceiver._thread (fst s) = None ->
    never_opened evs = true ->
    channels_of s = Some zero_buffer ->
    channels_of (run evs s) = Some zero_buffer) by (intros Hev; by apply Hgen).
  induction evs as [|ev evs IH]; intros s Hth Hev Hz; [done|].
  simpl in Hev. apply andb_prop in Hev as [Hev Hevs]. simpl.
  destruct ev as [| | |recv]; [done|..]; apply IH; try done;
    destruct s as [[[sk ? ? ? ? ? ? dr ?] th ?] ?]; simpl in Hth; subst th;
    destruct dr; destruct sk; done.
Qed.

(** ** The channel accessors *)

Lemma getitem_wrap (buf : list Z) (i : Z) :
  (- Z.of_nat (length buf) <= i < Z.of_nat (length buf))%Z ->
  exists v, buf !! Z.to_nat (i mod Z.of_nat (length buf)) = Some v /\ getitem buf i = Ok v.
Proof.
  intros Hi. unfold getitem.
  destruct (decide (0 <= i)%Z) as [Hpos|Hneg].
  - rewrite Z.mod_small by lia.
    destruct (lookup_lt_is_Some_2 buf (Z.to_nat i)) as [v Hv]; [lia|].
    exists v. split; [done|].
    unfold norm_index. rewrite decide_True by lia. by rewrite Hv.
  - rewrite <- (Z.mod_add i 1) by lia. rewrite Z.mod_small by lia.
    replace (i + 1 * Z.of_nat (length buf))%Z with (Z.of_nat (length buf) + i)%Z by lia.
    destruct (lookup_lt_is_Some_2 buf (Z.to_nat (Z.of_nat (length buf) + i)))
      as [v Hv]; [lia|].
    exists v. split; [done|].
    rewrite norm_index_neg by lia. by rewrite Hv.
Qed.

Lemma getitem_out (buf : list Z) (i : Z) :
  (i < - Z.of_nat (length buf) \/ Z.of_nat (length buf) <= i)%Z ->
  getitem buf i = Raise IndexError.
Proof. intros Hi. unfold getitem. by rewrite norm_index_out. Qed.

Lemma getitem_zero_buffer (i : Z) (v : Z) : getitem zero_buffer i = Ok v -> v = 0%Z.
Proof.
  unfold getitem. destruct (norm_index _ i) as [k|]; [|done].
  destruct (zero_buffer !! k) as [x|] eqn:Hx; [|done].
  apply lookup_replicate in Hx as [-> _]. congruence.
Qed.

Lemma get_channel_eq (r : Receiver.t) (h : heap) (buf : list Z) (i : Z) :
  h !! Receiver._channels r = Some buf ->
  Receiver.get_channel i (r, h) = (getitem buf i, (r, h)).
Proof.
  intros Hl. unfold Receiver.get_channel, bind, Receiver.on_self, Receiver.on_heap,
    zoom, gets, bytearray_getitem, bind, deref, lift.
  cbn [fst snd]. by rewrite Hl.
Qed.

Lemma get_dmx_channel_eq (s : state) (buf : list Z) (c : Z) :
  channels_of s = Some buf ->
  get_dmx_channel c s = (getitem buf c, s).
Proof.
  destruct s as [[r th se] h]. unfold channels_of. cbn [fst snd MultithreadReceiver.super].
  intros Hl. unfold get_dmx_channel, bind, MultithreadReceiver.on_self,
    MultithreadReceiver.on_super, zoom, gets, truthy.
  cbn [fst snd MultithreadReceiver.super]. by rewrite (get_channel_eq r h buf c Hl).
Qed.

(** C7: on a receiver built over the default buffer, before any write,
    the read of channel [i], an index counted from 0, raises [IndexError]
    for every [i >= 512] and returns 0 for every [i < 512]: the buffer is
    512 zeros from its construction. *)
Theorem get_channel_fresh (ip : string) (port u i : Z) :
  (0 <= i)%Z ->
  let s := (Receiver.init ip port u None, module_heap) in
  module_heap !! Receiver._channels (Receiver.init ip port u None)
  = Some (replicate 512 0%Z) /\
  ((512 <= i)%Z -> Receiver.get_channel i s = (Raise IndexError, s)) /\
  ((i < 512)%Z -> Receiver.get_channel i s = (Ok 0%Z, s)).
Proof.
  intros Hpos s. subst s.
  assert (Hl : module_heap !! Receiver._channels (Receiver.init ip port u None)
               = Some zero_buffer) by reflexivity.
  split; [exact Hl|].
  rewrite (get_channel_eq _ _ _ i Hl). split; intros Hi.
  - rewrite getitem_out; [done|]. change (length zero_buffer) with 512. lia.
  - destruct (getitem_wrap zero_buffer i) as (v & _ & Hv).
    { change (length zero_buffer) with 512. lia. }
    rewrite Hv. by rewrite (getitem_zero_buffer i v Hv).
Qed.

Lemma get_channel_fresh_witness :
  Receiver.get_channel 512 (Receiver.init "127.0.0.1" 6454 0 None, module_heap)
  = (Raise IndexError, (Receiver.init "127.0.0.1" 6454 0 None, module_heap)) /\
  Receiver.get_channel 511 (Receiver.init "127.0.0.1" 6454 0 None, module_heap)
  = (Ok 0%Z, (Receiver.init "127.0.0.1" 6454 0 None, module_heap)).
Proof.
  split.
  - apply (proj1 (proj2 (get_channel_fresh "127.0.0.1" 6454 0 512 ltac:(lia)))). lia.
  - apply (proj2 (proj2 (get_channel_fresh "127.0.0.1" 6454 0 511 ltac:(lia)))). lia.
Defined.

(** C10: in every state the module can reach, [get_dmx_channel c] with
    [-512 <= c <= -1] does not fail and returns the entry 512 + c of the
    512-entry buffer. *)
Theorem get_dmx_channel_negative (s : state) (c : Z) :
  reachable s -> (-512 <= c <= -1)%Z ->
  exists buf v,
    channels_of s = Some buf /\ length buf = 512 /\
    buf !! Z.to_nat (512 + c) = Some v /\
    get_dmx_channel c s = (Ok v, s).
Proof.
  intros Hs Hc. destruct (reachable_inv s Hs) as [_ (buf & Hbuf & Hlen)].
  destruct (getitem_wrap buf c) as (v & Hv & Hget); [lia|].
  exists buf, v. repeat split; [done..| |].
  - rewrite Hlen in Hv. rewrite <- (Z.mod_add c 1), Z.mod_small in Hv by lia.
    by replace (512 + c)%Z with (c + 1 * Z.of_nat 512)%Z by lia.
  - by rewrite (get_dmx_channel_eq s buf c Hbuf), Hget.
Qed.

Lemma get_dmx_channel_negative_witness :
  exists buf v,
    channels_of initial = Some buf /\ length buf = 512 /\
    buf !! Z.to_nat (512 + -1) = Some v /\
    get_dmx_channel (-1) initial = (Ok v, initial).
Proof.
  apply (get_dmx_channel_negative initial (-1)).
  - exists []. reflexivity.
  - lia.
Defined.

(** C2, as the code has it: whatever has happened to the module,
    [get_dmx_channel c] does not fail for [-512 <= c < 512] and returns
    the value the buffer holds at [c] (at [512 + c] for a negative [c]),
    which is 0 as long as the receiver has never been opened; for every
    other [c] it raises [IndexError] to its caller. *)
Theorem get_dmx_channel_in_range (evs : list event) (c : Z) :
  let s := run evs initial in
  ((-512 <= c < 512)%Z ->
     exists buf v,
       channels_of s = Some buf /\
       buf !! Z.to_nat (c mod 512) = Some v /\
       get_dmx_channel c s = (Ok v, s) /\
       (never_opened evs = true -> v = 0%Z)) /\
  ((c < -512 \/ 512 <= c)%Z -> get_dmx_channel c s = (Raise IndexError, s)).
Proof.
  intros s.
  destruct (reachable_inv s) as [_ (buf & Hbuf & Hlen)]; [by exists evs|].
  rewrite (get_dmx_channel_eq s buf c Hbuf). split; intros Hc.
  - destruct (getitem_wrap buf c) as (v & Hv & Hget); [lia|].
    exists buf, v. rewrite Hlen in Hv. repeat split; [done..| |].
    + by rewrite Hget.
    + intros Hno. pose proof (never_opened_zero evs Hno) as Hz.
      fold s in Hz. rewrite Hbuf in Hz. injection Hz as ->.
      by apply (getitem_zero_buffer c).
  - rewrite getitem_out; [done|lia].
Qed.

Lemma get_dmx_channel_in_range_witness :
  (exists buf v,
     channels_of initial = Some buf /\
     buf !! Z.to_nat (0 mod 512) = Some v /\
     get_dmx_channel 0 initial = (Ok v, initial) /\
     (never_opened [] = true -> v = 0%Z)) /\
  get_dmx_channel 512 initial = (Raise IndexError, initial).
Proof.
  split.
  - apply (proj1 (get_dmx_channel_in_range [] 0)). lia.
  - apply (proj2 (get_dmx_channel_in_range [] 512)). lia.
Defined.

(** C2, as it is worded, fails: in the module as loaded, the receiver
    never opened, the accessor raises for channel 512. *)
Lemma get_dmx_channel_512_raises :
  get_dmx_channel 512 initial = (Raise IndexError, initial).
Proof. reflexivity. Qed.

(** ** Closing *)

(** C8: [close()] twice in succession, from any state the module can
    reach, raises nothing and leaves the status "Inactive" both times; on a
    receiver just constructed (no socket, no thread) it raises nothing and
    leaves the status "Inactive"; the same holds of [Receiver.close] of the
    base class, from any state. *)
Theorem close_twice_inactive :
  (forall s : state, reachable s ->
     exists s1 s2,
       MultithreadReceiver.close s = (Ok tt, s1) /\ status_of s1 = "Inactive" /\
       MultithreadReceiver.close s1 = (Ok tt, s2) /\ status_of s2 = "Inactive") /\
  (forall (ip : string) (port u : Z) (cb : option loc) (h : heap),
     let r := MultithreadReceiver.init ip port u cb in
     Receiver.sock (MultithreadReceiver.super r) = None /\
     MultithreadReceiver._thread r = None /\
     exists s1,
       MultithreadReceiver.close (r, h) = (Ok tt, s1) /\ status_of s1 = "Inactive") /\
  (forall (r : Receiver.t) (h : heap),
     exists r1 r2,
       Receiver.close (r, h) = (Ok tt, (r1, h)) /\ Receiver.status r1 = "Inactive" /\
       Receiver.close (r1, h) = (Ok tt, (r2, h)) /\ Receiver.status r2 = "Inactive").
Proof.
  split; [|split].
  - intros [r h] Hs. destruct (reachable_inv _ Hs) as [Hth _]. cbn [fst] in Hth.
    eexists _, _. split; [by apply close_spec|]. split; [done|].
    split.
    + apply close_spec. cbn [MultithreadReceiver._thread].
      by destruct (MultithreadReceiver._thread r).
    + done.
  - intros ip port u cb h r. repeat split. eexists. split; [reflexivity|done].
  - intros [sk ip port u ah dh ch dr st] h. destruct sk; eexists _, _; (split; [reflexivity|]); done.
Qed.

Lemma close_twice_inactive_witness :
  exists s1 s2,
    MultithreadReceiver.close
      (run [EvStart "127.0.0.1" 6454 3 None;
            EvWorker (Datagram (build_frame 3 [10; 20; 30]%Z))] initial)
    = (Ok tt, s1) /\ status_of s1 = "Inactive" /\
    MultithreadReceiver.close s1 = (Ok tt, s2) /\ status_of s2 = "Inactive".
Proof.
  apply (proj1 close_twice_inactive).
  exists [EvStart "127.0.0.1" 6454 3 None;
          EvWorker (Datagram (build_frame 3 [10; 20; 30]%Z))].
  reflexivity.
Defined.

(** ** Buffers and their owners *)

Lemma receive_into_buffer_frame (r : Receiver.t) (h : heap) (cb l : loc)
    (recv : recv_result) :
  l <> cb ->
  snd (snd (Receiver.receive_into_buffer cb recv (r, h))) !! l = h !! l.
Proof.
  intros Hne. destruct (h !! cb) as [buf|] eqn:Hl.
  - destruct (receive_into_buffer_spec r h cb recv buf Hl) as (st' & buf' & -> & _).
    cbn [snd]. by rewrite lookup_insert_ne.
  - destruct recv as [data| |e]; [|done..].
    cbn [Receiver.receive_into_buffer]. unfold Receiver.handle_data.
    unfold bind at 1. unfold Receiver.on_self at 1, zoom, gets. cbn [fst snd].
    case_decide; [|done].
    unfold bind at 1. unfold Receiver.on_self at 1, zoom. cbn [fst snd].
    case_decide; [|done].
    unfold bind at 1. unfold Receiver.on_heap, zoom. cbn [fst snd].
    unfold Receiver.copy_channels_to_buffer, bytearray_len, bind, deref.
    by rewrite Hl.
Qed.

Lemma get_channel_lookup (r : Receiver.t) (h1 h2 : heap) (i : Z) :
  h1 !! Receiver._channels r = h2 !! Receiver._channels r ->
  fst (Receiver.get_channel i (r, h1)) = fst (Receiver.get_channel i (r, h2)).
Proof.
  intros Heq. unfold Receiver.get_channel, bind, Receiver.on_self, Receiver.on_heap,
    zoom, gets, bytearray_getitem, bind, deref, lift.
  cbn [fst snd]. rewrite Heq. by destruct (h2 !! Receiver._channels r).
Qed.

Lemma receive_next_frame (r : Receiver.t) (h : heap) (recv : recv_result) (l : loc) :
  l <> Receiver._channels r ->
  snd (snd (Receiver.receive_next recv (r, h))) !! l = h !! l.
Proof.
  intros Hne. unfold Receiver.receive_next. unfold bind at 1.
  unfold Receiver.on_self at 1, zoom, gets. cbn [fst snd].
  by apply receive_into_buffer_frame.
Qed.

Lemma receive_next_frame_read (r : Receiver.t) (h : heap) (u : Z) (p buf : list Z)
    (i : nat) (v : Z) :
  configured_for u r ->
  h !! Receiver._channels r = Some buf -> i < length buf -> p !! i = Some v ->
  exists buf',
    snd (snd (Receiver.receive_next (Datagram (build_frame u p)) (r, h)))
      !! Receiver._channels r = Some buf' /\
    getitem buf' (Z.of_nat i) = Ok v.
Proof.
  intros [Ha Hd] Hl Hi Hv.
  destruct (build_frame_slices u p) as (H12 & H18 & Hpay).
  unfold Receiver.receive_next. unfold bind at 1.
  unfold Receiver.on_self at 1, zoom, gets. cbn [fst snd Receiver.receive_into_buffer].
  rewrite (handle_data_accept r h _ (build_frame u p) buf); [|congruence..|done].
  cbn [snd]. rewrite lookup_insert_eq, Hpay.
  eexists. split; [done|].
  apply getitem_nat. pose proof (lookup_lt_Some _ _ _ Hv) as Hip.
  rewrite lookup_app_l by (rewrite length_take; lia).
  rewrite lookup_take_lt by lia. done.
Qed.

(** C9, as the code has it: [__init__] allocates no buffer, it stores the
    [bytearray] it is given and, when none is given, the one default
    object of its class; [MultithreadReceiver] hands its own default to
    the base class the same way.  Two receivers constructed over different
    bytearrays are independent: what one receives and writes leaves the
    buffer of the other, and every channel read through the other, as they
    were.  Two receivers constructed over the same bytearray, so any two
    constructed without the argument, share it: the bytes of a frame that
    one accepts are what is read through the other. *)
Theorem constructed_receivers_share_or_not (ip1 ip2 : string) (port1 port2 u1 u2 : Z)
    (cb1 cb2 : option loc) (h : heap) :
  let r1 := Receiver.init ip1 port1 u1 cb1 in
  let r2 := Receiver.init ip2 port2 u2 cb2 in
  let b1 := default Receiver.default_channel_buffer cb1 in
  let b2 := default Receiver.default_channel_buffer cb2 in
  (Receiver._channels r1 = b1 /\ Receiver._channels r2 = b2) /\
  (forall ip port u cb,
     MultithreadReceiver.super (MultithreadReceiver.init ip port u cb)
     = Receiver.init ip port u
         (Some (default MultithreadReceiver.default_channel_buffer cb))) /\
  (b1 <> b2 ->
   forall (recv : recv_result) (i : Z),
     let h' := snd (snd (Receiver.receive_next recv (r1, h))) in
     h' !! b2 = h !! b2 /\
     fst (Receiver.get_channel i (r2, h')) = fst (Receiver.get_channel i (r2, h))) /\
  (b1 = b2 ->
   forall (p buf : list Z) (i : nat) (v : Z),
     h !! b1 = Some buf -> i < length buf -> p !! i = Some v ->
     let h' := snd (snd (Receiver.receive_next (Datagram (build_frame u1 p)) (r1, h))) in
     fst (Receiver.get_channel (Z.of_nat i) (r2, h')) = Ok v).
Proof.
  intros r1 r2 b1 b2. split; [done|]. split; [done|]. split.
  - intros Hne recv i h'.
    assert (Hl : h' !! b2 = h !! b2).
    { subst h'. apply receive_next_frame. subst b1 b2 r1. cbn. congruence. }
    split; [done|]. by apply get_channel_lookup.
  - intros Heq p buf i v Hl Hi Hv h'.
    destruct (receive_next_frame_read r1 h u1 p buf i v (init_configured _ _ _ _) Hl Hi Hv)
      as (buf' & Hl' & Hget).
    fold h' in Hl'.
    assert (Hl2 : h' !! Receiver._channels r2 = Some buf').
    { change (Receiver._channels r2) with b2. rewrite <- Heq. exact Hl'. }
    by rewrite (get_channel_eq r2 h' buf' (Z.of_nat i) Hl2), Hget.
Qed.

Lemma constructed_receivers_share_or_not_witness :
  (let r1 := Receiver.init "127.0.0.1" 6454 0 None in
   let r2 := Receiver.init "127.0.0.1" 6455 0 None in
   let h' := snd (snd (Receiver.receive_next (Datagram (build_frame 0 [10]%Z))
                         (r1, module_heap))) in
   fst (Receiver.get_channel (Z.of_nat 0) (r2, h')) = Ok 10%Z) /\
  (let r1 := Receiver.init "127.0.0.1" 6454 0 (Some 3%positive) in
   let r2 := Receiver.init "127.0.0.1" 6455 0 (Some 4%positive) in
   let h := <[3%positive := zero_buffer]> (<[4%positive := zero_buffer]> module_heap) in
   let h' := snd (snd (Receiver.receive_next (Datagram (build_frame 0 [10]%Z)) (r1, h))) in
   h' !! 4%positive = h !! 4%positive /\
   fst (Receiver.get_channel 0 (r2, h')) = fst (Receiver.get_channel 0 (r2, h))).
Proof.
  split.
  - apply (proj2 (proj2 (proj2
             (constructed_receivers_share_or_not "127.0.0.1" "127.0.0.1" 6454 6455 0 0
                None None module_heap)))
             eq_refl [10]%Z zero_buffer 0 10%Z).
    + reflexivity.
    + simpl. lia.
    + reflexivity.
  - apply (proj1 (proj2 (proj2
             (constructed_receivers_share_or_not "127.0.0.1" "127.0.0.1" 6454 6455 0 0
                (Some 3%positive) (Some 4%positive)
                (<[3%positive := zero_buffer]>
                   (<[4%positive := zero_buffer]> module_heap)))))).
    discriminate.
Defined.

(** C9, as it is worded, fails: two receivers constructed one after the
    other without a buffer of their own receive the same default object,
    and a frame accepted by the first changes channel 0 as read through
    the second. *)
Lemma default_buffer_is_shared :
  let r1 := Receiver.init "127.0.0.1" 6454 0 None in
  let r2 := Receiver.init "127.0.0.1" 6455 0 None in
  let h' := snd (snd (Receiver.receive_next (Datagram (build_frame 0 [10]%Z))
                        (r1, module_heap))) in
  Receiver._channels r1 = Receiver._channels r2 /\
  fst (Receiver.get_channel 0 (r2, module_heap)) = Ok 0%Z /\
  fst (Receiver.get_channel 0 (r2, h')) = Ok 10%Z.
Proof. repeat split; reflexivity. Qed.

(** The same with one [bytearray] passed to both constructors. *)
Example shared_buffer_write_visible :
  let h := <[3%positive := zero_buffer]> module_heap in
  let r1 := Receiver.init "127.0.0.1" 6454 0 (Some 3%positive) in
  let r2 := Receiver.init "127.0.0.1" 6455 0 (Some 3%positive) in
  let h' := snd (snd (Receiver.receive_next (Datagram (build_frame 0 [10]%Z)) (r1, h))) in
  fst (Receiver.get_channel 0 (r2, h)) = Ok 0%Z /\
  fst (Receiver.get_channel 0 (r2, h')) = Ok 10%Z.
Proof. split; reflexivity. Qed.

(** ** The protocol header *)

(** C3, as the code has it: the first 12 bytes of the header are the
    string "Art-Net" and its NUL, the opcode 0x5000 low byte first, and
    the protocol version 0x000e high byte first: offsets 10 and 11 hold
    0x00 then 0x0e. *)
Theorem artnet_header_version_high_byte_first :
  slice Receiver._build_artnet_header 0 12
  = [0x41; 0x72; 0x74; 0x2d; 0x4e; 0x65; 0x74; 0x00; 0x00; 0x50; 0x00; 0x0e]%Z /\
  exists hi lo,
    Receiver._build_artnet_header !! 10 = Some hi /\
    Receiver._build_artnet_header !! 11 = Some lo /\
    hi = 0x00%Z /\ lo = 0x0e%Z /\ (256 * hi + lo = 0x000e)%Z.
Proof. split; [reflexivity|]. by exists 0%Z, 14%Z. Qed.

(** C3, as it is worded, fails: offsets 10 and 11 do not hold 0x0e then
    0x00. *)
Lemma artnet_header_version_not_little_endian :
  ~ (Receiver._build_artnet_header !! 10 = Some 0x0e%Z /\
     Receiver._build_artnet_header !! 11 = Some 0x00%Z).
Proof. intros [H10 _]. vm_compute in H10. discriminate. Qed.

(** * Further properties of the code *)

(** ** The universe sub-header *)

Lemma build_data_header_mod (u : Z) :
  Receiver._build_data_header u = [u mod 256; (u / 256) mod 256; 2; 0]%Z.
Proof.
  unfold Receiver._build_data_header.
  change 255%Z with (Z.ones 8).
  rewrite !Z.land_ones, Z.shiftr_div_pow2 by lia. reflexivity.
Qed.

Lemma mod_65536_split (u : Z) :
  (u mod 65536 = u mod 256 + 256 * ((u / 256) mod 256))%Z.
Proof. change 65536%Z with (256 * 256)%Z. apply Z.rem_mul_r; lia. Qed.

(** X1: the universe sub-header is the universe modulo 65536, low byte
    first, followed by 0x02 and 0x00; its bytes are bytes for every
    integer, negative ones included. *)
Theorem build_data_header_decode (u : Z) :
  exists lo hi,
    Receiver._build_data_header u = [lo; hi; 2; 0]%Z /\
    is_byte lo /\ is_byte hi /\
    (lo + 256 * hi = u mod 65536)%Z.
Proof.
  exists (u mod 256)%Z, ((u / 256) mod 256)%Z.
  split; [apply build_data_header_mod|].
  pose proof (Z.mod_pos_bound u 256). pose proof (Z.mod_pos_bound (u / 256) 256).
  unfold is_byte. repeat split; try lia.
  symmetry. apply mod_65536_split.
Qed.

(** X2: two universes have the same sub-header exactly when they are
    congruent modulo 65536: a receiver cannot tell universe [u] from
    [u + 65536]. *)
Theorem build_data_header_congruent (u v : Z) :
  Receiver._build_data_header u = Receiver._build_data_header v
  <-> (u mod 65536 = v mod 65536)%Z.
Proof.
  rewrite !build_data_header_mod, !mod_65536_split. split.
  - intros Heq. injection Heq as -> ->. reflexivity.
  - intros Heq.
    pose proof (Z.mod_pos_bound u 256). pose proof (Z.mod_pos_bound v 256).
    pose proof (Z.mod_pos_bound (u / 256) 256).
    pose proof (Z.mod_pos_bound (v / 256) 256).
    assert ((u / 256) mod 256 = (v / 256) mod 256)%Z as -> by lia.
    assert (u mod 256 = v mod 256)%Z as -> by lia.
    reflexivity.
Qed.

(** ** More on frames *)

Lemma set_status_configured (u : Z) (st : string) (r : Receiver.t) :
  configured_for u r -> configured_for u (Receiver.set_status st r).
Proof. intros [Ha Hd]. by split. Qed.

Lemma handle_data_frame (u : Z) (p buf : list Z) (r : Receiver.t) (h : heap) (cb : loc) :
  configured_for u r -> h !! cb = Some buf ->
  let n := min (length buf) (length p) in
  Receiver.handle_data cb (build_frame u p) (r, h)
  = (Ok tt,
     (Receiver.set_status ("Receiving " +:+ pretty (length p) +:+ " Channels") r,
      <[cb := take n p ++ drop n buf]> h)).
Proof.
  intros [Ha Hd] Hl n.
  destruct (build_frame_slices u p) as (H12 & H18 & Hpay).
  rewrite (handle_data_accept r h cb (build_frame u p) buf); [|congruence..|done].
  by rewrite Hpay.
Qed.

(** X3: the two bytes at offsets 12 and 13 play no part: frames that agree
    on their first 12 bytes and from offset 14 on are handled alike,
    outcome, status and buffers. *)
Theorem frame_counter_ignored (r : Receiver.t) (h : heap) (cb : loc)
    (data data' : list Z) :
  take 12 data = take 12 data' -> drop 14 data = drop 14 data' ->
  Receiver.handle_data cb data (r, h) = Receiver.handle_data cb data' (r, h).
Proof.
  intros H12 H14. unfold Receiver.handle_data, slice, slice_from.
  rewrite !drop_0. change (12 - 0) with 12.
  replace (drop 18 data) with (drop 4 (drop 14 data)) by (by rewrite drop_drop).
  replace (drop 18 data') with (drop 4 (drop 14 data')) by (by rewrite drop_drop).
  by rewrite H12, H14.
Qed.

Lemma frame_counter_ignored_witness :
  Receiver.handle_data Receiver.default_channel_buffer
    (build_frame 3 [10; 20; 30]%Z)
    (Receiver.init "127.0.0.1" 6454 3 None, module_heap)
  = Receiver.handle_data Receiver.default_channel_buffer
      (<[12 := 7%Z]> (<[13 := 9%Z]> (build_frame 3 [10; 20; 30]%Z)))
      (Receiver.init "127.0.0.1" 6454 3 None, module_heap).
Proof.
  apply (frame_counter_ignored (Receiver.init "127.0.0.1" 6454 3 None) module_heap
           Receiver.default_channel_buffer (build_frame 3 [10; 20; 30]%Z)
           (<[12 := 7%Z]> (<[13 := 9%Z]> (build_frame 3 [10; 20; 30]%Z)))).
  - reflexivity.
  - reflexivity.
Defined.

(** X4: a payload longer than the 512-entry buffer is accepted without
    any sign of truncation: the buffer becomes its first 512 bytes and the
    status reports the full length of the payload. *)
Theorem long_payload_truncated (u : Z) (p buf : list Z) (r : Receiver.t) (h : heap)
    (cb : loc) :
  512 < length p ->
  configured_for u r ->
  h !! cb = Some buf -> length buf = 512 ->
  Receiver.handle_data cb (build_frame u p) (r, h)
  = (Ok tt,
     (Receiver.set_status ("Receiving " +:+ pretty (length p) +:+ " Channels") r,
      <[cb := take 512 p]> h)).
Proof.
  intros Hp Hc Hl Hb.
  rewrite (handle_data_frame u p buf r h cb Hc Hl), Hb.
  replace (min 512 (length p)) with 512 by lia.
  rewrite drop_ge by lia. by rewrite app_nil_r.
Qed.

Lemma long_payload_truncated_witness :
  Receiver.handle_data Receiver.default_channel_buffer
    (build_frame 3 (replicate 600 7%Z))
    (Receiver.init "127.0.0.1" 6454 3 None, module_heap)
  = (Ok tt,
     (Receiver.set_status "Receiving 600 Channels" (Receiver.init "127.0.0.1" 6454 3 None),
      <[Receiver.default_channel_buffer := take 512 (replicate 600 7%Z)]> module_heap)).
Proof.
  apply (long_payload_truncated 3 (replicate 600 7%Z) zero_buffer
           (Receiver.init "127.0.0.1" 6454 3 None) module_heap
           Receiver.default_channel_buffer).
  - rewrite length_replicate. lia.
  - split; reflexivity.
  - reflexivity.
  - reflexivity.
Defined.

(** X5: of two accepted frames the later one wins where it has data, and
    nothing is reset: entry [i] of the buffer comes from the second
    payload if that is long enough, else from the first if that is, else
    from the buffer as it was. *)
Theorem later_frame_wins (u : Z) (p1 p2 buf : list Z) (r : Receiver.t) (h : heap)
    (cb : loc) :
  length p1 <= 512 -> length p2 <= 512 ->
  configured_for u r ->
  h !! cb = Some buf -> length buf = 512 ->
  let s1 := snd (Receiver.handle_data cb (build_frame u p1) (r, h)) in
  let s2 := snd (Receiver.handle_data cb (build_frame u p2) s1) in
  exists buf2,
    snd s2 !! cb = Some buf2 /\ length buf2 = 512 /\
    forall i,
      buf2 !! i = if decide (i < length p2) then p2 !! i
                  else if decide (i < length p1) then p1 !! i
                  else buf !! i.
Proof.
  intros Hp1 Hp2 Hc Hl Hb s1 s2. subst s2 s1.
  rewrite (handle_data_frame u p1 buf r h cb Hc Hl). cbn [snd].
  rewrite (handle_data_frame u p2 _ _ _ cb (set_status_configured u _ r Hc)
             (lookup_insert_eq h cb _)).
  cbn [snd]. rewrite lookup_insert_eq.
  rewrite !length_app, !length_take, !length_drop, Hb.
  replace (min 512 (length p1)) with (length p1) by lia.
  replace (length p1 `min` length p1 + (512 - length p1)) with 512 by lia.
  replace (min 512 (length p2)) with (length p2) by lia.
  rewrite !firstn_all.
  eexists. split; [done|]. split.
  { rewrite length_app, length_drop, length_app, length_drop. lia. }
  intros i. case_decide as Hi2.
  - by rewrite lookup_app_l by lia.
  - rewrite lookup_app_r by lia. rewrite lookup_drop.
    replace (length p2 + (i - length p2)) with i by lia.
    case_decide as Hi1.
    + by rewrite lookup_app_l by lia.
    + rewrite lookup_app_r by lia. rewrite lookup_drop. f_equal. lia.
Qed.

Lemma later_frame_wins_witness :
  let r := Receiver.init "127.0.0.1" 6454 3 None in
  let cb := Receiver.default_channel_buffer in
  let s1 := snd (Receiver.handle_data cb (build_frame 3 [10; 20; 30]%Z) (r, module_heap)) in
  let s2 := snd (Receiver.handle_data cb (build_frame 3 [11]%Z) s1) in
  exists buf2,
    snd s2 !! cb = Some buf2 /\ length buf2 = 512 /\
    forall i,
      buf2 !! i = if decide (i < length [11]%Z) then [11]%Z !! i
                  else if decide (i < length [10; 20; 30]%Z) then [10; 20; 30]%Z !! i
                  else zero_buffer !! i.
Proof.
  intros r cb.
  apply (later_frame_wins 3 [10; 20; 30]%Z [11]%Z zero_buffer r module_heap cb).
  - simpl. lia.
  - simpl. lia.
  - split; reflexivity.
  - reflexivity.
  - reflexivity.
Defined.

Lemma set_status_twice (st st' : string) (r : Receiver.t) :
  Receiver.set_status st (Receiver.set_status st' r) = Receiver.set_status st r.
Proof. by destruct r. Qed.

(** X6: handling a datagram a second time changes nothing: a repeated
    frame, accepted or not, leaves status and buffers as the first left
    them. *)
Theorem handle_data_idempotent (r : Receiver.t) (h : heap) (cb : loc)
    (data buf : list Z) :
  h !! cb = Some buf ->
  let s1 := snd (Receiver.handle_data cb data (r, h)) in
  Receiver.handle_data cb data s1 = (Ok tt, s1).
Proof.
  intros Hl s1. subst s1.
  destruct (decide (slice data 0 12 = slice (Receiver._artnet_header r) 0 12)) as [He|Hne].
  - destruct (decide (slice data 14 18 = Receiver._data_header r)) as [Hd|Hd].
    + rewrite (handle_data_accept r h cb data buf He Hd Hl). cbn [snd].
      match goal with
      | |- Receiver.handle_data _ _ (?r1, ?h1) = _ =>
          rewrite (handle_data_accept r1 h1 cb data _ He Hd (lookup_insert_eq h cb _))
      end.
      rewrite set_status_twice, insert_insert_eq.
      set (ch := slice_from data 18).
      rewrite length_app, length_take, length_drop.
      replace ((length buf `min` length ch) `min` length ch
               + (length buf - length buf `min` length ch))
        with (length buf) by lia.
      set (n := length buf `min` length ch).
      rewrite drop_app_length' by (rewrite length_take; lia).
      done.
    + rewrite (handle_data_reject_universe r h cb data He Hd). cbn [snd].
      match goal with
      | |- Receiver.handle_data _ _ (?r1, _) = _ =>
          rewrite (handle_data_reject_universe r1 h cb data He Hd)
      end.
      by rewrite set_status_twice.
  - rewrite (handle_data_reject_header r h cb data Hne). cbn [snd].
    match goal with
    | |- Receiver.handle_data _ _ (?r1, _) = _ =>
        rewrite (handle_data_reject_header r1 h cb data Hne)
    end.
    by rewrite set_status_twice.
Qed.

Lemma handle_data_idempotent_witness :
  let s1 := snd (Receiver.handle_data Receiver.default_channel_buffer
                   (build_frame 3 [10; 20; 30]%Z)
                   (Receiver.init "127.0.0.1" 6454 3 None, module_heap)) in
  Receiver.handle_data Receiver.default_channel_buffer (build_frame 3 [10; 20; 30]%Z) s1
  = (Ok tt, s1).
Proof.
  apply (handle_data_idempotent (Receiver.init "127.0.0.1" 6454 3 None) module_heap
           Receiver.default_channel_buffer (build_frame 3 [10; 20; 30]%Z) zero_buffer).
  reflexivity.
Defined.

Lemma receive_into_buffer_status (r : Receiver.t) (h : heap) (cb : loc)
    (recv : recv_result) (buf : list Z) :
  h !! cb = Some buf ->
  exists st' buf',
    Receiver.receive_into_buffer cb recv (r, h)
    = (Ok tt, (Receiver.set_status st' r, <[cb := buf']> h)) /\
    status_form st' /\ length buf' = length buf.
Proof.
  intros Hl. unfold status_form. destruct recv as [data| |e]; simpl.
  - destruct (decide (slice data 0 12 = slice (Receiver._artnet_header r) 0 12)) as [He|Hne].
    + destruct (decide (slice data 14 18 = Receiver._data_header r)) as [Hd|Hd].
      * eexists _, _. split; [by apply (handle_data_accept r h cb data buf)|].
        split; [by do 4 right; eexists|].
        rewrite length_app, length_take, length_drop. lia.
      * exists "Invalid Data", buf. rewrite (insert_id _ _ _ Hl).
        split; [by apply handle_data_reject_universe|]. split; [|done]. tauto.
    + exists "Invalid Data", buf. rewrite (insert_id _ _ _ Hl).
      split; [by apply handle_data_reject_header|]. split; [|done]. tauto.
  - exists "Timeout", buf. rewrite (insert_id _ _ _ Hl). repeat split; tauto.
  - exists ("Error " +:+ e), buf. rewrite (insert_id _ _ _ Hl).
    split; [done|]. split; [|done]. do 3 right. left. by exists e.
Qed.


(** X7: one turn of the receive loop never raises, whatever [recvfrom]
    did and whatever bytes arrived: it changes the status, to one of its
    five texts, and at most the contents of the buffer it was given, never
    its length nor any other field of the receiver. *)
Theorem receive_into_buffer_total (r : Receiver.t) (h : heap) (cb : loc)
    (recv : recv_result) (buf : list Z) :
  h !! cb = Some buf ->
  exists st' buf',
    Receiver.receive_into_buffer cb recv (r, h)
    = (Ok tt, (Receiver.set_status st' r, <[cb := buf']> h)) /\
    status_form st' /\ length buf' = length buf.
Proof. apply receive_into_buffer_status. Qed.

Lemma receive_into_buffer_total_witness :
  exists st' buf',
    Receiver.receive_into_buffer Receiver.default_channel_buffer
      (Datagram [1; 2; 3]%Z) (Receiver.init "127.0.0.1" 6454 3 None, module_heap)
    = (Ok tt, (Receiver.set_status st' (Receiver.init "127.0.0.1" 6454 3 None),
               <[Receiver.default_channel_buffer := buf']> module_heap)) /\
    status_form st' /\ length buf' = length zero_buffer.
Proof.
  apply (receive_into_buffer_total (Receiver.init "127.0.0.1" 6454 3 None) module_heap
           Receiver.default_channel_buffer (Datagram [1; 2; 3]%Z) zero_buffer).
  reflexivity.
Defined.

(** X8: the copy is safe for a buffer of any length, not only 512: it
    never raises, keeps the length of the buffer, writes the first
    [min(len(payload), len(buffer))] bytes of the payload and leaves the
    rest; an empty payload or an empty buffer changes nothing. *)
Theorem copy_channels_any_length (payload buf : list Z) (l : loc) (h : heap) :
  h !! l = Some buf ->
  exists buf',
    Receiver.copy_channels_to_buffer payload l h = (Ok tt, <[l := buf']> h) /\
    length buf' = length buf /\
    (forall i, i < min (length payload) (length buf) -> buf' !! i = payload !! i) /\
    (forall i, min (length payload) (length buf) <= i -> buf' !! i = buf !! i) /\
    (payload = [] \/ buf = [] -> buf' = buf).
Proof.
  intros Hl.
  eexists. split; [by apply copy_channels_to_buffer_spec|].
  set (n := length buf `min` length payload).
  assert (Hn : length (take n payload) = n) by (rewrite length_take; lia).
  split; [|split; [|split]].
  - rewrite length_app, Hn, length_drop. lia.
  - intros i Hi. rewrite lookup_app_l by lia. apply lookup_take_lt. lia.
  - intros i Hi. rewrite lookup_app_r by lia.
    rewrite Hn, lookup_drop. f_equal. lia.
  - intros [->| ->]; subst n; cbn [length].
    + by rewrite Nat.min_0_r, take_0, drop_0.
    + by rewrite Nat.min_0_l, take_0, drop_0.
Qed.

Lemma copy_channels_any_length_witness :
  exists buf',
    Receiver.copy_channels_to_buffer [10; 20; 30]%Z 5%positive
      (<[5%positive := [1; 2]%Z]> module_heap)
    = (Ok tt, <[5%positive := buf']> (<[5%positive := [1; 2]%Z]> module_heap)) /\
    length buf' = length [1; 2]%Z /\
    (forall i, i < min (length [10; 20; 30]%Z) (length [1; 2]%Z) ->
               buf' !! i = [10; 20; 30]%Z !! i) /\
    (forall i, min (length [10; 20; 30]%Z) (length [1; 2]%Z) <= i ->
               buf' !! i = [1; 2]%Z !! i) /\
    ([10; 20; 30]%Z = [] \/ [1; 2]%Z = [] -> buf' = [1; 2]%Z).
Proof.
  apply (copy_channels_any_length [10; 20; 30]%Z [1; 2]%Z 5%positive
           (<[5%positive := [1; 2]%Z]> module_heap)).
  reflexivity.
Defined.

(** ** The module as a state machine *)

Lemma initial_coherent : coherent initial.
Proof.
  unfold coherent, status_form. simpl. repeat split; auto.
Qed.

Lemma close_coherent (s : state) :
  inv s -> coherent s -> coherent (snd (MultithreadReceiver.close s)).
Proof.
  intros [Hth _] Hc. destruct_state s; simpl in Hth; try done; coherent_tac.
Qed.

Lemma start_coherent (ip : string) (port u : Z) (os_err : option string) (s : state) :
  inv s -> coherent s -> coherent (snd (ArtNetStartOperator_invoke ip port u os_err s)).
Proof.
  intros [Hth _] Hc.
  destruct_state s; simpl in Hth; try done; destruct os_err; coherent_tac.
Qed.

Lemma stop_coherent (s : state) :
  inv s -> coherent s -> coherent (snd (ArtNetStopOperator_invoke s)).
Proof.
  intros [Hth _] Hc. destruct_state s; simpl in Hth; try done; coherent_tac.
Qed.

Lemma worker_step_eq (recv : recv_result) (r : MultithreadReceiver.t) (h : heap)
    (buf : list Z) :
  worker_enabled r = true ->
  h !! Receiver._channels (MultithreadReceiver.super r) = Some buf ->
  exists st' buf',
    step (r, h) (EvWorker recv)
    = (MultithreadReceiver.set_super
         (Receiver.set_status st' (MultithreadReceiver.super r)) r,
       <[Receiver._channels (MultithreadReceiver.super r) := buf']> h) /\
    Receiver.receive_into_buffer (Receiver._channels (MultithreadReceiver.super r)) recv
      (MultithreadReceiver.super r, h)
    = (Ok tt, (Receiver.set_status st' (MultithreadReceiver.super r),
               <[Receiver._channels (MultithreadReceiver.super r) := buf']> h)) /\
    status_form st' /\ length buf' = length buf.
Proof.
  intros Hen Hl.
  destruct (receive_into_buffer_status (MultithreadReceiver.super r) h _ recv buf Hl)
    as (st' & buf' & Heq & Hst & Hlen).
  exists st', buf'. split; [|done].
  unfold step, run_event. unfold bind at 1.
  unfold MultithreadReceiver.on_self at 1, zoom, gets, id. cbn [fst snd].
  rewrite Hen.
  unfold MultithreadReceiver.receive_into_shared_buffer_step,
    MultithreadReceiver.on_super, zoom. cbn [fst snd].
  by rewrite Heq.
Qed.

Lemma worker_step_disabled (recv : recv_result) (s : state) :
  worker_enabled (fst s) = false -> step s (EvWorker recv) = s.
Proof.
  intros Hen. destruct s as [r h]. cbn [fst] in Hen.
  unfold step, run_event. unfold bind at 1.
  unfold MultithreadReceiver.on_self at 1, zoom, gets, id. cbn [fst snd].
  by rewrite Hen.
Qed.

Lemma worker_coherent (recv : recv_result) (s : state) :
  inv s -> coherent s -> coherent (step s (EvWorker recv)).
Proof.
  intros [_ (buf & Hbuf & _)] Hc. destruct s as [r h].
  destruct (worker_enabled r) eqn:Hen; [|by rewrite worker_step_disabled].
  destruct (worker_step_eq recv r h buf Hen Hbuf) as (st' & buf' & -> & _ & Hst & _).
  destruct r as [[sk ip port u ah dh ch dr st] th se].
  unfold worker_enabled in Hen. simpl in Hen.
  destruct th as [[]|]; try done. subst dr.
  unfold coherent in *. simpl in *. tauto.
Qed.

Lemma step_coherent (ev : event) (s : state) :
  inv s -> coherent s -> coherent (step s ev).
Proof.
  destruct ev.
  - apply start_coherent.
  - apply stop_coherent.
  - apply close_coherent.
  - apply worker_coherent.
Qed.

Lemma run_coherent (evs : list event) :
  forall s, inv s -> coherent s -> coherent (run evs s).
Proof.
  induction evs as [|ev evs IH]; intros s Hi Hc; [done|].
  simpl. apply IH; [by apply step_inv|by apply step_coherent].
Qed.

Lemma reachable_coherent (s : state) : reachable s -> coherent s.
Proof. intros [evs ->]. apply run_coherent; [apply initial_inv|apply initial_coherent]. Qed.

Lemma reachable_step (s : state) (ev : event) : reachable s -> reachable (step s ev).
Proof.
  intros [evs ->]. exists (evs ++ [ev]). unfold run. by rewrite foldl_app.
Qed.

(** X9: in every state the module can reach, the flag [do_receive] is set
    exactly while the worker thread runs, and then the socket is bound to
    the address and port the receiver is configured with. *)
Theorem receiving_has_worker_and_socket (s : state) :
  reachable s ->
  let r := fst s in
  let b := MultithreadReceiver.super r in
  (Receiver.do_receive b = true <-> MultithreadReceiver._thread r = Some ThreadRunning) /\
  (Receiver.do_receive b = true ->
   Receiver.sock b = Some (SockBound (Receiver.udp_ip b) (Receiver.udp_port b))).
Proof.
  intros Hs r b. destruct (reachable_coherent s Hs) as (_ & _ & _ & Hd).
  fold r b in Hd. destruct (Receiver.do_receive b).
  - destruct Hd as [Hth Hsk]. by repeat split.
  - destruct Hd as [Hth _]. split; [split|]; done.
Qed.

Lemma receiving_has_worker_and_socket_witness :
  let s := run [EvStart "10.0.0.1" 6454 3 None] initial in
  let r := fst s in
  let b := MultithreadReceiver.super r in
  (Receiver.do_receive b = true <-> MultithreadReceiver._thread r = Some ThreadRunning) /\
  (Receiver.do_receive b = true ->
   Receiver.sock b = Some (SockBound (Receiver.udp_ip b) (Receiver.udp_port b))).
Proof.
  apply (receiving_has_worker_and_socket (run [EvStart "10.0.0.1" 6454 3 None] initial)).
  exists [EvStart "10.0.0.1" 6454 3 None]. reflexivity.
Defined.

(** X10: whenever the receiver is not receiving (never started, stopped,
    or after a failed bind) its socket is not bound and the status reads
    "Inactive": "Timeout", "Invalid Data", "Error ..." and "Receiving ..."
    are only ever seen while it runs. *)
Theorem idle_is_inactive_and_unbound (s : state) :
  reachable s ->
  Receiver.do_receive (MultithreadReceiver.super (fst s)) = false ->
  status_of s = "Inactive" /\
  is_bound (Receiver.sock (MultithreadReceiver.super (fst s))) = false.
Proof.
  intros Hs Hdr. destruct (reachable_coherent s Hs) as (_ & _ & _ & Hd).
  rewrite Hdr in Hd. unfold status_of. tauto.
Qed.

Lemma idle_is_inactive_and_unbound_witness :
  let s := run [EvStart "10.0.0.1" 6454 3 None; EvWorker RecvTimeout; EvStop] initial in
  status_of s = "Inactive" /\
  is_bound (Receiver.sock (MultithreadReceiver.super (fst s))) = false.
Proof.
  apply (idle_is_inactive_and_unbound
           (run [EvStart "10.0.0.1" 6454 3 None; EvWorker RecvTimeout; EvStop] initial)).
  - exists [EvStart "10.0.0.1" 6454 3 None; EvWorker RecvTimeout; EvStop]. reflexivity.
  - reflexivity.
Defined.

(** X11: the status the panel shows is always one of "Inactive",
    "Timeout", "Invalid Data", "Error <text>" and "Receiving <n>
    Channels". *)
Theorem status_always_known (s : state) :
  reachable s -> status_form (status_of s).
Proof.
  intros Hs. by destruct (reachable_coherent s Hs) as (_ & Hst & _).
Qed.

Lemma status_always_known_witness :
  status_form (status_of (run [EvStart "10.0.0.1" 6454 3 None;
                               EvWorker (RecvError "network down")] initial)).
Proof.
  apply (status_always_known
           (run [EvStart "10.0.0.1" 6454 3 None; EvWorker (RecvError "network down")]
              initial)).
  exists [EvStart "10.0.0.1" 6454 3 None; EvWorker (RecvError "network down")].
  reflexivity.
Defined.

(** X12: the header templates never lag behind the configuration: in
    every reachable state the universe sub-header is the one of the
    universe stored in [artnet_universe], and the protocol header is the
    constant one. *)
Theorem headers_follow_configuration (s : state) :
  reachable s ->
  configured_for (Receiver.artnet_universe (MultithreadReceiver.super (fst s)))
    (MultithreadReceiver.super (fst s)).
Proof.
  intros Hs. by destruct (reachable_coherent s Hs) as (Hcfg & _).
Qed.

Lemma headers_follow_configuration_witness :
  let s := run [EvStart "10.0.0.1" 6454 3 None; EvStart "10.0.0.1" 6454 7 (Some "in use")]
             initial in
  configured_for (Receiver.artnet_universe (MultithreadReceiver.super (fst s)))
    (MultithreadReceiver.super (fst s)).
Proof.
  apply (headers_follow_configuration
           (run [EvStart "10.0.0.1" 6454 3 None;
                 EvStart "10.0.0.1" 6454 7 (Some "in use")] initial)).
  exists [EvStart "10.0.0.1" 6454 3 None; EvStart "10.0.0.1" 6454 7 (Some "in use")].
  reflexivity.
Defined.

(** ** What reaches the buffers *)

Lemma control_step_heap (s : state) (ev : event) :
  (forall recv, ev <> EvWorker recv) -> snd (step s ev) = snd s.
Proof.
  intros Hev. destruct ev as [ip port u os_err| | |recv]; [..|by destruct (Hev recv)].
  - destruct_state s; destruct os_err; reflexivity.
  - destruct_state s; reflexivity.
  - destruct_state s; reflexivity.
Qed.

(** X13: starting, stopping and closing never touch a buffer, whether
    they succeed or raise: the channel values survive a stop and a
    restart, nothing resets them to zero. *)
Theorem control_keeps_channels (s : state) (ev : event) :
  (forall recv, ev <> EvWorker recv) ->
  snd (step s ev) = snd s /\
  channels_of (step s ev) = channels_of s.
Proof.
  intros Hev. split; [by apply control_step_heap|].
  unfold channels_of. rewrite (control_step_heap s ev Hev). f_equal.
  destruct ev as [ip port u os_err| | |recv]; [..|by destruct (Hev recv)].
  - destruct_state s; destruct os_err; reflexivity.
  - destruct_state s; reflexivity.
  - destruct_state s; reflexivity.
Qed.

Lemma control_keeps_channels_witness :
  let s := run [EvStart "10.0.0.1" 6454 3 None;
                EvWorker (Datagram (build_frame 3 [10; 20; 30]%Z))] initial in
  snd (step s EvStop) = snd s /\
  channels_of (step s EvStop) = channels_of s.
Proof.
  intros s. apply (control_keeps_channels s EvStop). discriminate.
Defined.

Lemma run_other_buffers (evs : list event) (l : loc) :
  l <> MultithreadReceiver.default_channel_buffer ->
  forall s, inv s -> coherent s -> snd (run evs s) !! l = snd s !! l.
Proof.
  intros Hl. induction evs as [|ev evs IH]; intros s Hi Hc; [done|].
  simpl. rewrite IH by (by apply step_inv || by apply step_coherent).
  destruct ev as [ip port u os_err| | |recv];
    try (by rewrite control_step_heap).
  destruct s as [r h]. destruct Hi as [_ (buf & Hbuf & _)].
  destruct Hc as (_ & _ & Hch & _). cbn [fst] in Hch.
  destruct (worker_enabled r) eqn:Hen; [|by rewrite worker_step_disabled].
  destruct (worker_step_eq recv r h buf Hen Hbuf) as (st' & buf' & -> & _).
  cbn [snd]. rewrite Hch. by rewrite lookup_insert_ne.
Qed.

(** X14: the module writes to one [bytearray] only, the default buffer of
    [MultithreadReceiver]: whatever happens, every other buffer on the
    heap, the default buffer of [Receiver] among them, stays as it was
    when the module was loaded. *)
Theorem only_own_buffer_written (evs : list event) (l : loc) :
  l <> MultithreadReceiver.default_channel_buffer ->
  snd (run evs initial) !! l = module_heap !! l.
Proof.
  intros Hl.
  apply (run_other_buffers evs l Hl initial initial_inv initial_coherent).
Qed.

Lemma only_own_buffer_written_witness :
  snd (run [EvStart "10.0.0.1" 6454 3 None;
            EvWorker (Datagram (build_frame 3 [10; 20; 30]%Z))] initial)
    !! Receiver.default_channel_buffer
  = module_heap !! Receiver.default_channel_buffer.
Proof.
  apply (only_own_buffer_written
           [EvStart "10.0.0.1" 6454 3 None;
            EvWorker (Datagram (build_frame 3 [10; 20; 30]%Z))]
           Receiver.default_channel_buffer).
  discriminate.
Defined.

(** ** Starting *)

(** X15: when the bind fails the start operator raises the [OSError] of
    the operating system after it has stored the new configuration and
    rebuilt the sub-header; the receiver is left idle with a fresh,
    unbound socket and no running worker, and the stop operator, which
    acts only while the flag is set, then does nothing, so that this
    socket stays open until [close_receiver]. *)
Theorem failed_bind_leaves_idle (s : state) (ip : string) (port u : Z) (msg : string) :
  reachable s ->
  let res := ArtNetStartOperator_invoke ip port u (Some msg) s in
  let b := MultithreadReceiver.super (fst (snd res)) in
  fst res = Raise (OSError msg) /\
  Receiver.do_receive b = false /\
  Receiver.sock b = Some SockUnbound /\
  MultithreadReceiver._thread (fst (snd res)) <> Some ThreadRunning /\
  Receiver.udp_ip b = ip /\ Receiver.udp_port b = port /\
  Receiver.artnet_universe b = u /\
  Receiver._data_header b = Receiver._build_data_header u /\
  ArtNetStopOperator_invoke (snd res) = (Ok tt, snd res) /\
  Receiver.sock (MultithreadReceiver.super (fst (snd (close_receiver (snd res)))))
  = Some SockClosed.
Proof.
  intros Hs res b. subst b res. destruct (reachable_inv s Hs) as [Hth _].
  pose proof (reachable_coherent s Hs) as (_ & _ & _ & Hd).
  destruct_state s; simpl in Hth, Hd; try done; simpl; repeat split; try done;
    by destruct Hd.
Qed.

Lemma failed_bind_leaves_idle_witness :
  let res := ArtNetStartOperator_invoke "10.0.0.1" 6454 3 (Some "Address already in use")
               initial in
  let b := MultithreadReceiver.super (fst (snd res)) in
  fst res = Raise (OSError "Address already in use") /\
  Receiver.do_receive b = false /\
  Receiver.sock b = Some SockUnbound /\
  MultithreadReceiver._thread (fst (snd res)) <> Some ThreadRunning /\
  Receiver.udp_ip b = "10.0.0.1" /\ Receiver.udp_port b = 6454%Z /\
  Receiver.artnet_universe b = 3%Z /\
  Receiver._data_header b = Receiver._build_data_header 3 /\
  ArtNetStopOperator_invoke (snd res) = (Ok tt, snd res) /\
  Receiver.sock (MultithreadReceiver.super (fst (snd (close_receiver (snd res)))))
  = Some SockClosed.
Proof.
  apply (failed_bind_leaves_idle initial "10.0.0.1" 6454 3 "Address already in use").
  exists []. reflexivity.
Defined.

(** X16: the start operator stops a running receiver itself: pressing
    stop and then start does exactly what start alone does, outcome and
    state, from any state. *)
Theorem start_stops_first (s : state) (ip : string) (port u : Z)
    (os_err : option string) :
  (ArtNetStopOperator_invoke;;; ArtNetStartOperator_invoke ip port u os_err) s
  = ArtNetStartOperator_invoke ip port u os_err s.
Proof. destruct_state s; destruct os_err; cbv; reflexivity. Qed.

Lemma start_ok_fields (s : state) (ip : string) (port u : Z) :
  inv s ->
  let s1 := step s (EvStart ip port u None) in
  worker_enabled (fst s1) = true /\
  Receiver.artnet_universe (MultithreadReceiver.super (fst s1)) = u /\
  Receiver.udp_ip (MultithreadReceiver.super (fst s1)) = ip /\
  Receiver.udp_port (MultithreadReceiver.super (fst s1)) = port /\
  fst (run_event (EvStart ip port u None) s) = Ok tt.
Proof.
  intros [Hth _]. destruct_state s; simpl in Hth; try done; repeat split; done.
Qed.

(** X17: end to end.  From any reachable state, running or not, a
    successful start for universe [u] followed by a datagram header +
    universe-header(u) + p, with at most 512 bytes of payload, makes the
    status "Receiving len(p) Channels" and [get_dmx_channel i] return byte
    [i] of [p] for every [i < len(p)]. *)
Theorem start_then_frame_is_read (s : state) (ip : string) (port u : Z) (p : list Z)
    (i : nat) (v : Z) :
  reachable s -> length p <= 512 -> p !! i = Some v ->
  let s1 := step s (EvStart ip port u None) in
  let s2 := step s1 (EvWorker (Datagram (build_frame u p))) in
  status_of s2 = "Receiving " +:+ pretty (length p) +:+ " Channels" /\
  get_dmx_channel (Z.of_nat i) s2 = (Ok v, s2).
Proof.
  intros Hs Hp Hv s1 s2.
  assert (Hs1 : reachable s1) by (by apply reachable_step).
  destruct (start_ok_fields s ip port u (reachable_inv s Hs)) as (Hen & Hu & _).
  fold s1 in Hen, Hu.
  destruct (reachable_inv s1 Hs1) as [_ (buf & Hbuf & Hlen)].
  pose proof (reachable_coherent s1 Hs1) as (Hcfg & _). rewrite Hu in Hcfg.
  subst s2. destruct s1 as [r1 h1]. cbn [fst] in *.
  unfold channels_of in Hbuf. cbn [fst snd] in Hbuf.
  destruct (worker_step_eq (Datagram (build_frame u p)) r1 h1 buf Hen Hbuf)
    as (st' & buf' & -> & Hrecv & _).
  cbn [Receiver.receive_into_buffer] in Hrecv.
  rewrite (handle_data_frame u p buf _ h1 _ Hcfg Hbuf) in Hrecv.
  injection Hrecv as Hst Hheap.
  split; [by rewrite <- Hst|].
  rewrite (get_dmx_channel_eq _ buf' (Z.of_nat i)).
  - rewrite (getitem_nat buf' i v); [done|].
    assert (Hb : <[Receiver._channels (MultithreadReceiver.super r1) := buf']> h1
                 !! Receiver._channels (MultithreadReceiver.super r1) = Some buf')
      by apply lookup_insert_eq.
    rewrite <- Hheap, lookup_insert_eq in Hb. injection Hb as <-.
    rewrite Hlen. replace (min 512 (length p)) with (length p) by lia.
    rewrite firstn_all. rewrite lookup_app_l by (by eapply lookup_lt_Some). done.
  - unfold channels_of. cbn [fst snd MultithreadReceiver.super
      MultithreadReceiver.set_super Receiver._channels Receiver.set_status].
    apply lookup_insert_eq.
Qed.

Lemma start_then_frame_is_read_witness :
  let s1 := step initial (EvStart "10.0.0.1" 6454 3 None) in
  let s2 := step s1 (EvWorker (Datagram (build_frame 3 [10; 20; 30]%Z))) in
  status_of s2 = "Receiving 3 Channels" /\
  get_dmx_channel (Z.of_nat 1) s2 = (Ok 20%Z, s2).
Proof.
  apply (start_then_frame_is_read initial "10.0.0.1" 6454 3 [10; 20; 30]%Z 1 20%Z).
  - exists []. reflexivity.
  - simpl. lia.
  - reflexivity.
Defined.

Lemma build_data_header_eq_mod (u v : Z) :
  Receiver._build_data_header u = Receiver._build_data_header v ->
  (u mod 65536 = v mod 65536)%Z.
Proof.
  rewrite !build_data_header_mod, !mod_65536_split.
  intros Heq. injection Heq as -> ->. reflexivity.
Qed.

(** X18: end to end, the other way.  After a successful start for
    universe [u], a well-formed frame of a universe [v] that differs from
    [u] modulo 65536 is dropped: the status reads "Invalid Data" and the
    buffer keeps every value. *)
Theorem start_then_foreign_frame_dropped (s : state) (ip : string) (port u v : Z)
    (p : list Z) :
  reachable s -> (u mod 65536 <> v mod 65536)%Z ->
  let s1 := step s (EvStart ip port u None) in
  let s2 := step s1 (EvWorker (Datagram (build_frame v p))) in
  status_of s2 = "Invalid Data" /\
  channels_of s2 = channels_of s1.
Proof.
  intros Hs Huv s1 s2.
  assert (Hs1 : reachable s1) by (by apply reachable_step).
  destruct (start_ok_fields s ip port u (reachable_inv s Hs)) as (Hen & Hu & _).
  fold s1 in Hen, Hu.
  destruct (reachable_inv s1 Hs1) as [_ (buf & Hbuf & Hlen)].
  pose proof (reachable_coherent s1 Hs1) as ([Ha Hd] & _). rewrite Hu in Hd.
  subst s2. destruct s1 as [r1 h1]. cbn [fst] in *.
  unfold channels_of in *. cbn [fst snd] in *.
  destruct (worker_step_eq (Datagram (build_frame v p)) r1 h1 buf Hen Hbuf)
    as (st' & buf' & -> & Hrecv & _).
  cbn [Receiver.receive_into_buffer] in Hrecv.
  destruct (build_frame_slices v p) as (H12 & H18 & _).
  rewrite handle_data_reject_universe in Hrecv.
  - injection Hrecv as Hst Hheap. split.
    + by rewrite <- Hst.
    + cbn [fst snd MultithreadReceiver.super MultithreadReceiver.set_super
        Receiver._channels Receiver.set_status].
      by rewrite <- Hheap.
  - by rewrite H12, Ha.
  - rewrite H18, Hd. intros Heq. apply build_data_header_eq_mod in Heq. congruence.
Qed.

Lemma start_then_foreign_frame_dropped_witness :
  let s1 := step initial (EvStart "10.0.0.1" 6454 3 None) in
  let s2 := step s1 (EvWorker (Datagram (build_frame 7 [10; 20; 30]%Z))) in
  status_of s2 = "Invalid Data" /\
  channels_of s2 = channels_of s1.
Proof.
  apply (start_then_foreign_frame_dropped initial "10.0.0.1" 6454 3 7 [10; 20; 30]%Z).
  - exists []. reflexivity.
  - vm_compute. discriminate.
Defined.

(** ** The receive loops *)

Lemma receive_next_eq (r : Receiver.t) (h : heap) (recv : recv_result) :
  Receiver.receive_next recv (r, h)
  = Receiver.receive_into_buffer (Receiver._channels r) recv (r, h).
Proof. reflexivity. Qed.

Lemma receive_running (recvs : list recv_result) :
  forall (r : Receiver.t) (h : heap) (buf : list Z),
    Receiver.do_receive r = true ->
    h !! Receiver._channels r = Some buf ->
    exists st' buf',
      Receiver.receive recvs (r, h)
      = (Ok false,
         (match recvs with [] => r | _ => Receiver.set_status st' r end,
          <[Receiver._channels r := buf']> h)) /\
      length buf' = length buf.
Proof.
  induction recvs as [|recv rest IH]; intros r h buf Hdr Hl.
  - exists "", buf. rewrite (insert_id _ _ _ Hl). split; [|done].
    unfold Receiver.receive, bind, Receiver.on_self, zoom, gets, ret.
    cbn [fst snd]. by rewrite Hdr.
  - destruct (receive_into_buffer_status r h _ recv buf Hl)
      as (st1 & buf1 & Heq & _ & Hlen1).
    cbn [Receiver.receive]. unfold bind at 1.
    unfold Receiver.on_self at 1, zoom, gets. cbn [fst snd]. rewrite Hdr.
    unfold bind at 1. rewrite receive_next_eq, Heq.
    destruct (IH (Receiver.set_status st1 r) (<[Receiver._channels r := buf1]> h) buf1)
      as (st2 & buf2 & Heq2 & Hlen2); [done|apply lookup_insert_eq|].
    rewrite Heq2.
    cbn [Receiver._channels Receiver.set_status]. rewrite insert_insert_eq.
    destruct rest.
    + exists st1, buf2. split; [done|lia].
    + exists st2, buf2. rewrite set_status_twice. split; [done|lia].
Qed.

(** X19: the loop of [Receiver.receive] is left only through the flag,
    and nothing inside the loop clears it: with [do_receive] clear it
    returns at once and changes nothing; with [do_receive] set it handles
    every datagram, timeout and socket error it is given without raising
    and is still waiting for more, flag set, buffer at its length. *)
Theorem receive_leaves_only_by_flag (recvs : list recv_result) (r : Receiver.t)
    (h : heap) (buf : list Z) :
  h !! Receiver._channels r = Some buf ->
  (Receiver.do_receive r = false ->
   Receiver.receive recvs (r, h) = (Ok true, (r, h))) /\
  (Receiver.do_receive r = true ->
   exists r' buf',
     Receiver.receive recvs (r, h)
     = (Ok false, (r', <[Receiver._channels r := buf']> h)) /\
     Receiver.do_receive r' = true /\ length buf' = length buf).
Proof.
  intros Hl. split; intros Hdr.
  - destruct recvs; unfold Receiver.receive, bind, Receiver.on_self, zoom, gets, ret;
      cbn [fst snd]; by rewrite Hdr.
  - destruct (receive_running recvs r h buf Hdr Hl) as (st' & buf' & Heq & Hlen).
    eexists _, buf'. split; [exact Heq|]. split; [|done].
    by destruct recvs.
Qed.

Lemma receive_leaves_only_by_flag_witness :
  exists r' buf',
    Receiver.receive [RecvTimeout; Datagram (build_frame 3 [10; 20; 30]%Z)]
      (Receiver.set_do_receive true (Receiver.init "127.0.0.1" 6454 3 None), module_heap)
    = (Ok false, (r', <[Receiver.default_channel_buffer := buf']> module_heap)) /\
    Receiver.do_receive r' = true /\ length buf' = length zero_buffer.
Proof.
  apply (proj2 (receive_leaves_only_by_flag
                  [RecvTimeout; Datagram (build_frame 3 [10; 20; 30]%Z)]
                  (Receiver.set_do_receive true (Receiver.init "127.0.0.1" 6454 3 None))
                  module_heap zero_buffer eq_refl)).
  reflexivity.
Defined.

(** X20: [Receiver.close] of the base class closes the socket and sets
    the status but leaves [do_receive] set, unlike the [close] of
    [MultithreadReceiver]: after [open] and [close] on a plain [Receiver]
    the loop of [receive] is not left, every further [recvfrom] result is
    still handled. *)
Theorem base_close_keeps_receiving (recvs : list recv_result) (r : Receiver.t)
    (h : heap) (buf : list Z) :
  h !! Receiver._channels r = Some buf ->
  let s1 := snd (Receiver.open None (r, h)) in
  let s2 := snd (Receiver.close s1) in
  Receiver.sock (fst s2) = Some SockClosed /\
  Receiver.status (fst s2) = "Inactive" /\
  Receiver.do_receive (fst s2) = true /\
  fst (Receiver.receive recvs s2) = Ok false.
Proof.
  intros Hl s1 s2. subst s2 s1.
  destruct r as [sk ip port u ah dh ch dr st]. cbn in Hl |- *.
  repeat split.
  match goal with
  | |- fst (Receiver.receive _ (?r2, _)) = _ =>
      destruct (receive_running recvs r2 h buf eq_refl Hl) as (st' & buf' & -> & _)
  end.
  done.
Qed.

Lemma base_close_keeps_receiving_witness :
  let s1 := snd (Receiver.open None (Receiver.init "127.0.0.1" 6454 3 None, module_heap)) in
  let s2 := snd (Receiver.close s1) in
  Receiver.sock (fst s2) = Some SockClosed /\
  Receiver.status (fst s2) = "Inactive" /\
  Receiver.do_receive (fst s2) = true /\
  fst (Receiver.receive [RecvError "Bad file descriptor"] s2) = Ok false.
Proof.
  apply (base_close_keeps_receiving [RecvError "Bad file descriptor"]
           (Receiver.init "127.0.0.1" 6454 3 None) module_heap zero_buffer).
  reflexivity.
Defined.

Lemma worker_enabled_flag (r : MultithreadReceiver.t) :
  worker_enabled r = true ->
  Receiver.do_receive (MultithreadReceiver.super r) = true.
Proof.
  unfold worker_enabled. by destruct (MultithreadReceiver._thread r) as [[]|].
Qed.

Lemma worker_step_keeps_enabled (recv : recv_result) (s : state) :
  inv s -> worker_enabled (fst s) = true ->
  worker_enabled (fst (step s (EvWorker recv))) = true /\
  Receiver._channels (MultithreadReceiver.super (fst (step s (EvWorker recv))))
  = Receiver._channels (MultithreadReceiver.super (fst s)) /\
  MultithreadReceiver.on_super
    (Receiver.receive_into_buffer
       (Receiver._channels (MultithreadReceiver.super (fst s))) recv) s
  = (Ok tt, step s (EvWorker recv)).
Proof.
  intros [_ (buf & Hbuf & _)] Hen. destruct s as [r h]. cbn [fst] in *.
  unfold channels_of in Hbuf. cbn [fst snd] in Hbuf.
  destruct (worker_step_eq recv r h buf Hen Hbuf) as (st' & buf' & -> & Heq & _).
  split; [|split].
  - destruct r as [[sk ip port u ah dh ch dr st] th se]. exact Hen.
  - by destruct r as [[sk ip port u ah dh ch dr st] th se].
  - unfold MultithreadReceiver.on_super, zoom. cbn [fst snd]. by rewrite Heq.
Qed.

Lemma shared_loop_running (recvs : list recv_result) :
  forall s : state,
    inv s -> coherent s -> worker_enabled (fst s) = true ->
    MultithreadReceiver.receive_into_shared_buffer
      (Receiver._channels (MultithreadReceiver.super (fst s))) recvs s
    = (Ok false, run (EvWorker <$> recvs) s).
Proof.
  induction recvs as [|recv rest IH]; intros s Hi Hc Hen.
  - destruct s as [r h]. cbn [fst] in Hen.
    unfold MultithreadReceiver.receive_into_shared_buffer, bind,
      MultithreadReceiver.on_super, Receiver.on_self, zoom, gets, ret.
    cbn [fst snd]. rewrite (worker_enabled_flag r Hen).
    by destruct r as [[sk ip port u ah dh ch dr st] th se].
  - destruct (worker_step_keeps_enabled recv s Hi Hen) as (Hen' & Hch & Hstep).
    cbn [MultithreadReceiver.receive_into_shared_buffer]. unfold bind at 1.
    assert (Hdr : MultithreadReceiver.on_super
                    (Receiver.on_self (gets Receiver.do_receive)) s = (Ok true, s)).
    { destruct s as [r h]. cbn [fst] in Hen.
      unfold MultithreadReceiver.on_super, Receiver.on_self, zoom, gets.
      cbn [fst snd]. rewrite (worker_enabled_flag r Hen).
      by destruct r as [[sk ip port u ah dh ch dr st] th se]. }
    rewrite Hdr. unfold bind at 1. rewrite Hstep.
    rewrite <- Hch. rewrite IH; [done| |by apply step_coherent|done].
    by apply step_inv.
Qed.

(** X21: the loop the worker thread runs, [receive_into_shared_buffer] on
    the buffer of the receiver: while the receiver is receiving it never
    raises and never leaves the loop, and handles the results of
    [recvfrom] one after the other; when the flag is clear it returns at
    once and changes nothing. *)
Theorem shared_loop_follows_flag (recvs : list recv_result) (s : state) :
  reachable s ->
  let b := MultithreadReceiver.super (fst s) in
  (Receiver.do_receive b = true ->
   MultithreadReceiver.receive_into_shared_buffer (Receiver._channels b) recvs s
   = (Ok false, run (EvWorker <$> recvs) s)) /\
  (Receiver.do_receive b = false ->
   MultithreadReceiver.receive_into_shared_buffer (Receiver._channels b) recvs s
   = (Ok true, s)).
Proof.
  intros Hs b. subst b. split; intros Hdr.
  - apply shared_loop_running; [by apply reachable_inv|by apply reachable_coherent|].
    destruct (reachable_coherent s Hs) as (_ & _ & _ & Hd). rewrite Hdr in Hd.
    destruct Hd as [Hth _]. unfold worker_enabled. by rewrite Hth.
  - destruct s as [[[sk ip port u ah dh ch dr st] th se] h]. cbn in Hdr. subst dr.
    by destruct recvs.
Qed.

Lemma shared_loop_follows_flag_witness :
  let s := run [EvStart "10.0.0.1" 6454 3 None] initial in
  MultithreadReceiver.receive_into_shared_buffer
    (Receiver._channels (MultithreadReceiver.super (fst s)))
    [RecvTimeout; Datagram (build_frame 3 [10; 20; 30]%Z)] s
  = (Ok false,
     run (EvWorker <$> [RecvTimeout; Datagram (build_frame 3 [10; 20; 30]%Z)]) s).
Proof.
  intros s.
  apply (proj1 (shared_loop_follows_flag
                  [RecvTimeout; Datagram (build_frame 3 [10; 20; 30]%Z)] s
                  (ex_intro _ [EvStart "10.0.0.1" 6454 3 None] eq_refl))).
  reflexivity.
Defined.

Lemma idle_ignores_worker (recvs : list recv_result) (s : state) :
  worker_enabled (fst s) = false -> run (EvWorker <$> recvs) s = s.
Proof.
  intros Hen. induction recvs as [|recv rest IH]; [done|].
  simpl. by rewrite worker_step_disabled.
Qed.

(** X22: once the receiver has been stopped or closed, nothing that
    arrives reaches it: the flag is clear, the status reads "Inactive",
    and no later turn of the worker changes status or buffer. *)
Theorem stopped_receiver_is_frozen (s : state) (ev : event) (recvs : list recv_result) :
  reachable s -> ev = EvStop \/ ev = EvCloseReceiver ->
  let s1 := step s ev in
  Receiver.do_receive (MultithreadReceiver.super (fst s1)) = false /\
  status_of s1 = "Inactive" /\
  run (EvWorker <$> recvs) s1 = s1.
Proof.
  intros Hs Hev s1.
  assert (Hdr : Receiver.do_receive (MultithreadReceiver.super (fst s1)) = false).
  { subst s1. destruct (reachable_inv s Hs) as [Hth _].
    destruct Hev as [-> | ->]; destruct_state s; simpl in Hth; done. }
  pose proof (reachable_coherent s1 (reachable_step s ev Hs)) as (_ & _ & _ & Hd).
  rewrite Hdr in Hd. destruct Hd as (Hth & _ & Hst).
  split; [done|]. split; [done|].
  apply idle_ignores_worker. unfold worker_enabled.
  by destruct (MultithreadReceiver._thread (fst s1)) as [[]|].
Qed.

Lemma stopped_receiver_is_frozen_witness :
  let s1 := step (run [EvStart "10.0.0.1" 6454 3 None] initial) EvStop in
  Receiver.do_receive (MultithreadReceiver.super (fst s1)) = false /\
  status_of s1 = "Inactive" /\
  run (EvWorker <$> [Datagram (build_frame 3 [10; 20; 30]%Z)]) s1 = s1.
Proof.
  apply (stopped_receiver_is_frozen (run [EvStart "10.0.0.1" 6454 3 None] initial)
           EvStop [Datagram (build_frame 3 [10; 20; 30]%Z)]).
  - exists [EvStart "10.0.0.1" 6454 3 None]. reflexivity.
  - by left.
Defined.
